(** * The spline extension module (Lib/signal/splinemodule.c)

    A shallow embedding of the five entry points of the module [spline]
    ([cspline2d], [qspline2d], [sepfir2d], [symiirorder1], [symiirorder2])
    and of the helper [convert_strides].

    - C [int]s are integers of [Z]; the only arithmetic the file does on them
      is comparison, [>>] and a counter, none of which can wrap.
    - C [double]s are binary64 floats ([PrimFloat.float]) with the IEEE
      comparisons; a conversion to [float] rounds to binary32.
    - Array buffers live in a heap of blocks; a wrapper is a computation over
      the heap that ends with an array, with a Python exception, or in
      behaviour C leaves undefined.
    - The routines the wrappers call ([S_cubic_spline2D], [D_IIR_forback1],
      ...) are defined in other files of the library; they are a parameter,
      and every call is recorded with its arguments and its status.
    - The coercions [PyArray_FromObject] and [PyArray_ContiguousFromObject]
      are Numeric's; they are a parameter too, and what a property needs of
      them is among its hypotheses.
    - Reference counts are not modelled: [Py_DECREF] and [Py_XDECREF] free
      no block. *)

From Stdlib Require Import ZArith String Floats Bool Lia.
From stdpp Require Import base option list gmap.

Local Open Scope Z_scope.
Set Warnings "-inexact-float".

(** ** [convert_strides] *)

(** Width of a C [int]: the bound on the number of halvings of a
    non-negative [int]. *)
Definition int_bits : nat := 32%nat.

(** [bitshift = -1; while (size != 0) { size >>= 1; bitshift++; }], run for
    at most [fuel] iterations.  [>>] on a negative [int] is an arithmetic
    shift, so a negative [size] never reaches 0: the loop does not end and
    the result is [None] for every [fuel]. *)
Fixpoint bitshift_loop (fuel : nat) (size bitshift : Z) : option Z :=
  if size =? 0 then Some bitshift
  else match fuel with
       | O => None
       | S fuel' => bitshift_loop fuel' (Z.shiftr size 1) (bitshift + 1)
       end.

(** [for (n = ...; n < N; n++) convstrides[n] = instrides[n] >> bitshift;]
    with [todo] iterations left.  An index outside either array is an
    out-of-bounds access: [None]. *)
Fixpoint stride_loop (todo n : nat) (instrides convstrides : list Z)
    (bitshift : Z) : option (list Z) :=
  match todo with
  | O => Some convstrides
  | S todo' =>
      match instrides !! n with
      | Some s =>
          if bool_decide (n < length convstrides)%nat
          then stride_loop todo' (S n) instrides
                 (<[n := Z.shiftr s bitshift]> convstrides) bitshift
          else None
      | None => None
      end
  end.

(** [convert_strides(instrides, convstrides, size, N)]: the contents of
    [convstrides] on return.  With [size = 0] the shift count is [-1], which
    C leaves undefined as soon as the second loop runs. *)
Definition convert_strides (fuel : nat) (instrides convstrides : list Z)
    (size N : Z) : option (list Z) :=
  match bitshift_loop fuel size (-1) with
  | None => None
  | Some bitshift =>
      if N <=? 0 then Some convstrides
      else if bitshift <? 0 then None
      else stride_loop (Z.to_nat N) 0 instrides convstrides bitshift
  end.

(** ** Numeric's array objects *)

(** [enum PyArray_TYPES] of Numeric/arrayobject.h (the header is not part of
    the module).  The wrappers only compare type numbers; what matters is the
    order FLOAT < DOUBLE < CFLOAT < CDOUBLE, above every integer type. *)
Definition PyArray_CHAR : Z := 0.
Definition PyArray_UBYTE : Z := 1.
Definition PyArray_SBYTE : Z := 2.
Definition PyArray_SHORT : Z := 3.
Definition PyArray_USHORT : Z := 4.
Definition PyArray_INT : Z := 5.
Definition PyArray_UINT : Z := 6.
Definition PyArray_LONG : Z := 7.
Definition PyArray_FLOAT : Z := 8.
Definition PyArray_DOUBLE : Z := 9.
Definition PyArray_CFLOAT : Z := 10.
Definition PyArray_CDOUBLE : Z := 11.
Definition PyArray_OBJECT : Z := 12.

(** The numeric element types: everything below [PyArray_OBJECT]. *)
Definition is_numeric (t : Z) : Prop := PyArray_CHAR <= t <= PyArray_CDOUBLE.
Definition is_real (t : Z) : Prop := t = PyArray_FLOAT \/ t = PyArray_DOUBLE.
Definition is_complex (t : Z) : Prop := t = PyArray_CFLOAT \/ t = PyArray_CDOUBLE.

Record PyArray_Descr := { type_num : Z; elsize : Z }.

#[global] Instance PyArray_Descr_eq_dec : EqDecision PyArray_Descr.
Proof. solve_decision. Defined.

(** [PyArray_DescrFromType]: the descriptor of a type number, with the
    element sizes of an LP64 machine. *)
Definition PyArray_DescrFromType (t : Z) : option PyArray_Descr :=
  let size :=
    if (t =? PyArray_CHAR) || (t =? PyArray_UBYTE) || (t =? PyArray_SBYTE) then Some 1
    else if (t =? PyArray_SHORT) || (t =? PyArray_USHORT) then Some 2
    else if (t =? PyArray_INT) || (t =? PyArray_UINT) || (t =? PyArray_FLOAT) then Some 4
    else if (t =? PyArray_LONG) || (t =? PyArray_DOUBLE) || (t =? PyArray_CFLOAT)
            || (t =? PyArray_OBJECT) then Some 8
    else if t =? PyArray_CDOUBLE then Some 16
    else None in
  (fun s => {| type_num := t; elsize := s |}) <$> size.

(** An array element: a real or a complex number. *)
Inductive scalar :=
  | SReal (x : float)
  | SComplex (re im : float).

Definition zero_of (t : Z) : scalar :=
  if (t =? PyArray_CFLOAT) || (t =? PyArray_CDOUBLE)
  then SComplex 0%float 0%float else SReal 0%float.

(** A buffer is a block of the heap. *)
Abbreviation loc := positive.
Abbreviation heap := (gmap positive (list scalar)).

(** [PyArrayObject]: [data], [nd], [dimensions], [strides] (in bytes) and
    [descr]. *)
Record PyArrayObject := {
  data : loc;
  nd : Z;
  dimensions : list Z;
  strides : list Z;
  descr : PyArray_Descr
}.

(** The accessor macros of the module. *)
Definition DATA (arr : PyArrayObject) : loc := data arr.
Definition DIMS (arr : PyArrayObject) : list Z := dimensions arr.
Definition STRIDES (arr : PyArrayObject) : list Z := strides arr.
Definition ELSIZE (arr : PyArrayObject) : Z := elsize (descr arr).
Definition OBJECTTYPE (arr : PyArrayObject) : Z := type_num (descr arr).
Definition MIN (a b : Z) : Z := if a >? b then b else a.
Definition MAX (a b : Z) : Z := if a >? b then a else b.

(** [PyArray_ObjectType(op, minimum_type)] on an array: the larger of the
    array's type and the minimum. *)
Definition PyArray_ObjectType (op : PyArrayObject) (minimum_type : Z) : Z :=
  MAX minimum_type (OBJECTTYPE op).

(** Byte strides of a C-contiguous array of element size [sd]. *)
Fixpoint contiguous_strides (dims : list Z) (sd : Z) : list Z :=
  match dims with
  | [] => []
  | _ :: ds => foldr Z.mul sd ds :: contiguous_strides ds sd
  end.

(** [PyArray_FromDims(nd, d, type)]: a new block, zero-filled, owned by a new
    contiguous array of the given shape; NULL on a negative dimension or an
    unknown type.  Running out of memory is not modelled. *)
Definition PyArray_FromDims (n : Z) (d : list Z) (type : Z) (h : heap)
    : heap * option PyArrayObject :=
  match PyArray_DescrFromType type with
  | None => (h, None)
  | Some de =>
      let dims := take (Z.to_nat n) d in
      if bool_decide (length dims = Z.to_nat n) && forallb (Z.leb 0) dims then
        let l := fresh (dom h) in
        (<[l := replicate (Z.to_nat (foldr Z.mul 1 dims)) (zero_of type)]> h,
         Some {| data := l; nd := n; dimensions := dims;
                 strides := contiguous_strides dims (elsize de); descr := de |})
      else (h, None)
  end.

(** The two coercions of Numeric's C interface the module uses.  Each takes
    the object, the requested type and the least and greatest rank, and
    yields an array (the object itself, or a converted copy in a new block)
    or NULL. *)
Record ArrayAPI := {
  PyArray_FromObject :
    PyArrayObject -> Z -> Z -> Z -> heap -> heap * option PyArrayObject;
  PyArray_ContiguousFromObject :
    PyArrayObject -> Z -> Z -> Z -> heap -> heap * option PyArrayObject
}.

(** ** The routines behind the wrappers *)

(** [Py_complex], as [PyArg_ParseTuple] fills it for the format [D]. *)
Record Py_complex := { real : float; imag : float }.

(** A GNU C [__complex__] value. *)
Record complex := { creal : float; cimag : float }.

(** Conversion of a [double] to [float]: round to nearest even on 24 bits,
    with the exponent range of binary32. *)
Definition single (x : float) : float :=
  match Prim2SF x with
  | S754_finite s m e => SF2Prim (binary_round 24 128 s m e)
  | _ => x
  end.

(** [re + 1.0i*im] as GNU C computes it in [double].  The constant [1.0i]
    is the complex number (0.0, 1.0); its product with the real [im] is
    taken part by part, (0.0 * im, 1.0 * im), and the real [re] is added to
    the real part.  So the real part is not [re] itself: it is a NaN when
    [im] is infinite or a NaN, and +0.0 when [re] is -0.0 and [im] is not
    negative. *)
Definition gnu_complex (re im : float) : complex :=
  {| creal := re + 0 * im; cimag := 1 * im |}.

(** Conversion of a [__complex__ double] to [__complex__ float]: each part
    is converted. *)
Definition csingle (z : complex) : complex :=
  {| creal := single (creal z); cimag := single (cimag z) |}.

(** The routines of the library the wrappers call.  Their code is in other
    files. *)
Inductive routine :=
  | S_cubic_spline2D | D_cubic_spline2D
  | S_quadratic_spline2D | D_quadratic_spline2D
  | S_separable_2Dconvolve_mirror | D_separable_2Dconvolve_mirror
  | C_separable_2Dconvolve_mirror | Z_separable_2Dconvolve_mirror
  | S_IIR_forback1 | D_IIR_forback1 | C_IIR_forback1 | Z_IIR_forback1
  | S_IIR_forback2 | D_IIR_forback2.

(** The argument lists the wrappers build, one constructor per shape of
    call, in the order of the C call. *)
Inductive arguments :=
  | spline2D_args (image coeffs : loc) (M N : Z) (lambda : float)
      (strides cstrides : list Z) (precision : float)
  | convolve_args (inp out : loc) (M N : Z) (hrow hcol : loc) (Nhrow Nhcol : Z)
      (instrides outstrides : list Z)
  | forback1_args (c0 z1 : float) (x y : loc) (N stridex stridey : Z)
      (precision : float)
  | cforback1_args (c0 z1 : complex) (x y : loc) (N stridex stridey : Z)
      (precision : float)
  | forback2_args (r omega : float) (x y : loc) (N stridex stridey : Z)
      (precision : float).

(** The buffer a call is given to write its result to (the second pointer of
    every argument list). *)
Definition output_of (a : arguments) : loc :=
  match a with
  | spline2D_args _ coeffs _ _ _ _ _ _ => coeffs
  | convolve_args _ out _ _ _ _ _ _ _ _ => out
  | forback1_args _ _ _ y _ _ _ _ => y
  | cforback1_args _ _ _ y _ _ _ _ => y
  | forback2_args _ _ _ y _ _ _ _ => y
  end.

(** The buffer a call reads the signal or image from. *)
Definition input_of (a : arguments) : loc :=
  match a with
  | spline2D_args image _ _ _ _ _ _ _ => image
  | convolve_args inp _ _ _ _ _ _ _ _ _ => inp
  | forback1_args _ _ x _ _ _ _ _ => x
  | cforback1_args _ _ x _ _ _ _ _ => x
  | forback2_args _ _ x _ _ _ _ _ => x
  end.

Definition precision_of (a : arguments) : option float :=
  match a with
  | spline2D_args _ _ _ _ _ _ _ p => Some p
  | convolve_args _ _ _ _ _ _ _ _ _ _ => None
  | forback1_args _ _ _ _ _ _ _ p => Some p
  | cforback1_args _ _ _ _ _ _ _ p => Some p
  | forback2_args _ _ _ _ _ _ _ p => Some p
  end.

Definition lambda_of (a : arguments) : option float :=
  match a with
  | spline2D_args _ _ _ _ lambda _ _ _ => Some lambda
  | _ => None
  end.

(** One recorded call: the routine, its arguments, the status it returned. *)
Record call_event := {
  callee : routine;
  actuals : arguments;
  status : Z
}.

(** ** Computations of the wrappers *)

Inductive PyErr :=
  | ValueError (message : string)  (* PYERR(message) *)
  | ArrayError.                    (* NULL from the array interface, which set the exception *)

Inductive outcome (A : Type) :=
  | Return (a : A)
  | Raise (e : PyErr)
  | Undefined.
Arguments Return {A} a.
Arguments Raise {A} e.
Arguments Undefined {A}.

(** The heap together with the calls made so far. *)
Record state := { mem : heap; calls : list call_event }.

Definition Py (A : Type) : Type := state -> state * outcome A.

#[global] Instance Py_ret : MRet Py := fun A a s => (s, Return a).

#[global] Instance Py_bind : MBind Py := fun A B f m s =>
  match m s with
  | (s', Return a) => f a s'
  | (s', Raise e) => (s', Raise e)
  | (s', Undefined) => (s', Undefined)
  end.

(** [PYERR(message)]: set a ValueError and go to [fail]. *)
Definition PYERR {A} (message : string) : Py A :=
  fun s => (s, Raise (ValueError message)).

Definition undefined {A} : Py A := fun s => (s, Undefined).

(** A value C only defines when the access is in bounds. *)
Definition defined {A} (o : option A) : Py A :=
  match o with Some a => mret a | None => undefined end.

(** A call into the array interface; the result may be NULL. *)
Definition api_call (f : heap -> heap * option PyArrayObject)
    : Py (option PyArrayObject) :=
  fun s => let '(h, r) := f (mem s) in
           ({| mem := h; calls := calls s |}, Return r).

(** [if (a == NULL) goto fail;] *)
Definition nonnull (a : option PyArrayObject) : Py PyArrayObject :=
  match a with Some a => mret a | None => fun s => (s, Raise ArrayError) end.

(** ** The wrappers *)

Section Wrappers.

(** [__GNUC__]: whether the module is compiled by GNU C, which alone has
    the [__complex__] types of the complex cases. *)
Variable gnuc : bool.
(** The array interface of Numeric. *)
Variable api : ArrayAPI.
(** The library's routines: from the heap to the heap they leave and the
    [int] they return. *)
Variable core : routine -> arguments -> heap -> heap * Z.

(** A call of a routine, recorded. *)
Definition call (r : routine) (a : arguments) : Py Z :=
  fun s => let '(h, ret) := core r a (mem s) in
           ({| mem := h;
               calls := calls s ++ [{| callee := r; actuals := a; status := ret |}] |},
            Return ret).

(** [thetype = PyArray_ObjectType(image, PyArray_FLOAT);
    thetype = MIN(thetype, cap);] *)
Definition working_type (image : PyArrayObject) (cap : Z) : Z :=
  MIN (PyArray_ObjectType image PyArray_FLOAT) cap.

(** [if ((precision <= 0.0) || (precision > 1.0)) precision = d;] *)
Definition clamp_precision (precision d : float) : float :=
  if (precision <=? 0)%float || (1 <? precision)%float then d else precision.

(** The two branches on [thetype] of [cspline2d] and [qspline2d].  With any
    other type [retval] would be read without having been set. *)
Definition spline_switch (S_routine D_routine : routine) (thetype : Z)
    (a_image ck : PyArrayObject) (M N : Z) (lambda : float)
    (instrides outstrides : list Z) (precision : float) : Py Z :=
  if thetype =? PyArray_FLOAT then
    let precision := clamp_precision precision 1e-3 in
    call S_routine
      (spline2D_args (DATA a_image) (DATA ck) M N lambda instrides outstrides precision)
  else if thetype =? PyArray_DOUBLE then
    let precision := clamp_precision precision 1e-6 in
    call D_routine
      (spline2D_args (DATA a_image) (DATA ck) M N lambda instrides outstrides precision)
  else undefined.

(** [cspline2d(input, lambda=0.0, precision=-1.0)] *)
Definition cspline2d (image : PyArrayObject) (lambda_arg precision_arg : option float)
    : Py PyArrayObject :=
  let lambda := default 0%float lambda_arg in
  let precision := default (-1)%float precision_arg in
  let thetype := working_type image PyArray_DOUBLE in
  a_image ← api_call (PyArray_FromObject api image thetype 2 2);
  a_image ← nonnull a_image;
  ck ← api_call (PyArray_FromDims 2 (DIMS a_image) thetype);
  ck ← nonnull ck;
  M ← defined (DIMS a_image !! 0%nat);
  N ← defined (DIMS a_image !! 1%nat);
  instrides ← defined
    (convert_strides int_bits (STRIDES a_image) [0; 0] (ELSIZE a_image) 2);
  let outstrides := [N; 1] in
  retval ← spline_switch S_cubic_spline2D D_cubic_spline2D thetype
             a_image ck M N lambda instrides outstrides precision;
  if retval =? -3 then PYERR "Precision too high.  Error did not converge."
  else if retval <? 0 then PYERR "Problem occured inside routine"
  else mret ck.

(** [qspline2d(input, lambda=0.0, precision=-1.0)] *)
Definition qspline2d (image : PyArrayObject) (lambda_arg precision_arg : option float)
    : Py PyArrayObject :=
  let lambda := default 0%float lambda_arg in
  let precision := default (-1)%float precision_arg in
  if negb (lambda =? 0)%float then PYERR "Smoothing spline not yet implemented."
  else
  let thetype := working_type image PyArray_DOUBLE in
  a_image ← api_call (PyArray_FromObject api image thetype 2 2);
  a_image ← nonnull a_image;
  ck ← api_call (PyArray_FromDims 2 (DIMS a_image) thetype);
  ck ← nonnull ck;
  M ← defined (DIMS a_image !! 0%nat);
  N ← defined (DIMS a_image !! 1%nat);
  instrides ← defined
    (convert_strides int_bits (STRIDES a_image) [0; 0] (ELSIZE a_image) 2);
  let outstrides := [N; 1] in
  retval ← spline_switch S_quadratic_spline2D D_quadratic_spline2D thetype
             a_image ck M N lambda instrides outstrides precision;
  if retval =? -3 then PYERR "Precision too high.  Error did not converge."
  else if retval <? 0 then PYERR "Problem occured inside routine"
  else mret ck.

(** The [switch (thetype)] of [FIRsepsym2d]. *)
Definition FIRsepsym2d_switch (thetype : Z) (a_image out a_hrow a_hcol : PyArrayObject)
    (M N Nhrow Nhcol : Z) (instrides outstrides : list Z) : Py Z :=
  let args := convolve_args (DATA a_image) (DATA out) M N (DATA a_hrow) (DATA a_hcol)
                Nhrow Nhcol instrides outstrides in
  if thetype =? PyArray_FLOAT then call S_separable_2Dconvolve_mirror args
  else if thetype =? PyArray_DOUBLE then call D_separable_2Dconvolve_mirror args
  else if gnuc && (thetype =? PyArray_CFLOAT) then call C_separable_2Dconvolve_mirror args
  else if gnuc && (thetype =? PyArray_CDOUBLE) then call Z_separable_2Dconvolve_mirror args
  else PYERR "Incorrect type.".

(** [sepfir2d(in, hrow, hcol)] *)
Definition FIRsepsym2d (image hrow hcol : PyArrayObject) : Py PyArrayObject :=
  let thetype := working_type image PyArray_CDOUBLE in
  a_image ← api_call (PyArray_FromObject api image thetype 2 2);
  a_hrow ← api_call (PyArray_ContiguousFromObject api hrow thetype 1 1);
  a_hcol ← api_call (PyArray_ContiguousFromObject api hcol thetype 1 1);
  a_image ← nonnull a_image;
  a_hrow ← nonnull a_hrow;
  a_hcol ← nonnull a_hcol;
  out ← api_call (PyArray_FromDims 2 (DIMS a_image) thetype);
  out ← nonnull out;
  M ← defined (DIMS a_image !! 0%nat);
  N ← defined (DIMS a_image !! 1%nat);
  instrides ← defined
    (convert_strides int_bits (STRIDES a_image) [0; 0] (ELSIZE a_image) 2);
  let outstrides := [N; 1] in
  Nhrow ← defined (DIMS a_hrow !! 0%nat);
  Nhcol ← defined (DIMS a_hcol !! 0%nat);
  ret ← FIRsepsym2d_switch thetype a_image out a_hrow a_hcol M N Nhrow Nhcol
          instrides outstrides;
  if ret <? 0 then PYERR "Problem occured inside routine."
  else mret out.

(** The [switch (thetype)] of [IIRsymorder1]. *)
Definition IIRsymorder1_switch (thetype : Z) (c0 z1 : Py_complex)
    (a_sig out : PyArrayObject) (N instrides outstrides : Z) (precision : float)
    : Py Z :=
  if thetype =? PyArray_FLOAT then
    let rc0 := single (real c0) in
    let rz1 := single (real z1) in
    let precision := clamp_precision precision 1e-6 in
    call S_IIR_forback1
      (forback1_args rc0 rz1 (DATA a_sig) (DATA out) N instrides outstrides
         (single precision))
  else if thetype =? PyArray_DOUBLE then
    let rc0 := real c0 in
    let rz1 := real z1 in
    let precision := clamp_precision precision 1e-11 in
    call D_IIR_forback1
      (forback1_args rc0 rz1 (DATA a_sig) (DATA out) N instrides outstrides precision)
  else if gnuc && (thetype =? PyArray_CFLOAT) then
    let zc0 := csingle (gnu_complex (real c0) (imag c0)) in
    let zz1 := csingle (gnu_complex (real z1) (imag z1)) in
    let precision := clamp_precision precision 1e-6 in
    call C_IIR_forback1
      (cforback1_args zc0 zz1 (DATA a_sig) (DATA out) N instrides outstrides
         (single precision))
  else if gnuc && (thetype =? PyArray_CDOUBLE) then
    let zc0 := gnu_complex (real c0) (imag c0) in
    let zz1 := gnu_complex (real z1) (imag z1) in
    let precision := clamp_precision precision 1e-11 in
    call Z_IIR_forback1
      (cforback1_args zc0 zz1 (DATA a_sig) (DATA out) N instrides outstrides precision)
  else PYERR "Incorrect type.".

(** [symiirorder1(in, c0, z1 [, precision])] *)
Definition IIRsymorder1 (sig : PyArrayObject) (c0 z1 : Py_complex)
    (precision_arg : option float) : Py PyArrayObject :=
  let precision := default (-1)%float precision_arg in
  let thetype := working_type sig PyArray_CDOUBLE in
  a_sig ← api_call (PyArray_FromObject api sig thetype 1 1);
  a_sig ← nonnull a_sig;
  out ← api_call (PyArray_FromDims 1 (DIMS a_sig) thetype);
  out ← nonnull out;
  N ← defined (DIMS a_sig !! 0%nat);
  instrides ← defined
    (convert_strides int_bits (STRIDES a_sig) [0] (ELSIZE a_sig) 1);
  instrides ← defined (instrides !! 0%nat);
  let outstrides := 1 in
  ret ← IIRsymorder1_switch thetype c0 z1 a_sig out N instrides outstrides precision;
  if ret <? 0 then PYERR "Problem occured inside routine."
  else mret out.

(** The [switch (thetype)] of [IIRsymorder2]. *)
Definition IIRsymorder2_switch (thetype : Z) (r omega : float)
    (a_sig out : PyArrayObject) (N instrides outstrides : Z) (precision : float)
    : Py Z :=
  if thetype =? PyArray_FLOAT then
    let precision := clamp_precision precision 1e-6 in
    call S_IIR_forback2
      (forback2_args r omega (DATA a_sig) (DATA out) N instrides outstrides precision)
  else if thetype =? PyArray_DOUBLE then
    let precision := clamp_precision precision 1e-11 in
    call D_IIR_forback2
      (forback2_args r omega (DATA a_sig) (DATA out) N instrides outstrides precision)
  else PYERR "Incorrect type.".

(** [symiirorder2(in, r, omega [, precision])] *)
Definition IIRsymorder2 (sig : PyArrayObject) (r omega : float)
    (precision_arg : option float) : Py PyArrayObject :=
  let precision := default (-1)%float precision_arg in
  let thetype := working_type sig PyArray_DOUBLE in
  a_sig ← api_call (PyArray_FromObject api sig thetype 1 1);
  a_sig ← nonnull a_sig;
  out ← api_call (PyArray_FromDims 1 (DIMS a_sig) thetype);
  out ← nonnull out;
  N ← defined (DIMS a_sig !! 0%nat);
  instrides ← defined
    (convert_strides int_bits (STRIDES a_sig) [0] (ELSIZE a_sig) 1);
  instrides ← defined (instrides !! 0%nat);
  let outstrides := 1 in
  ret ← IIRsymorder2_switch thetype r omega a_sig out N instrides outstrides precision;
  if ret <? 0 then PYERR "Problem occured inside routine."
  else mret out.

End Wrappers.

(** ** A reference instance

    An executable array interface and executable routines, to run the
    wrappers on concrete arrays. *)

Module Reference.

(** Conversion of one element to the type [t]. *)
Definition cast (t : Z) (x : scalar) : scalar :=
  match x with
  | SReal v =>
      if (t =? PyArray_CFLOAT) || (t =? PyArray_CDOUBLE) then SComplex v 0%float
      else x
  | SComplex _ _ => x
  end.

(** The coercion: a well-formed array of the requested type and of a rank
    within the bounds is returned as it is; one of a lower numeric type is
    converted into a new block, with the same layout in elements; every
    other request is refused. *)
Definition from_object (op : PyArrayObject) (type min_depth max_depth : Z) (h : heap)
    : heap * option PyArrayObject :=
  if negb ((min_depth <=? nd op) && (nd op <=? max_depth)
           && bool_decide (length (dimensions op) = Z.to_nat (nd op))
           && bool_decide (length (strides op) = Z.to_nat (nd op))
           && forallb (Z.leb 0) (dimensions op)
           && bool_decide (PyArray_DescrFromType (OBJECTTYPE op) = Some (descr op)))
  then (h, None)
  else if OBJECTTYPE op =? type then (h, Some op)
  else if (OBJECTTYPE op <? type) && (type <=? PyArray_CDOUBLE) && (0 <? ELSIZE op) then
    match PyArray_DescrFromType type, h !! data op with
    | Some de, Some buf =>
        let l := fresh (dom h) in
        (<[l := cast type <$> buf]> h,
         Some {| data := l; nd := nd op; dimensions := dimensions op;
                 strides := (fun s => s / ELSIZE op * elsize de) <$> strides op;
                 descr := de |})
    | _, _ => (h, None)
    end
  else (h, None).

Definition numeric : ArrayAPI :=
  {| PyArray_FromObject := from_object;
     PyArray_ContiguousFromObject := from_object |}.




(** A routine that overwrites its output buffer with ones and returns the
    status [ret]. *)
Definition fill (ret : Z) (r : routine) (a : arguments) (h : heap) : heap * Z :=
  (alter (fmap (fun _ => SReal 1%float)) (output_of a) h, ret).

Definition int16 : PyArray_Descr := {| type_num := PyArray_SHORT; elsize := 2 |}.
Definition float32 : PyArray_Descr := {| type_num := PyArray_FLOAT; elsize := 4 |}.
Definition float64 : PyArray_Descr := {| type_num := PyArray_DOUBLE; elsize := 8 |}.
Definition complex128 : PyArray_Descr := {| type_num := PyArray_CDOUBLE; elsize := 16 |}.

(** The image [[1, 2], [3, 4]] of type float64, in block 1. *)
Definition image22 : PyArrayObject :=
  {| data := 1%positive; nd := 2; dimensions := [2; 2]; strides := [16; 8];
     descr := float64 |}.

(** A signal of three float64 samples, in block 2. *)
Definition signal3 : PyArrayObject :=
  {| data := 2%positive; nd := 1; dimensions := [3]; strides := [8];
     descr := float64 |}.

(** A signal of two complex128 samples, in block 3. *)
Definition csignal2 : PyArrayObject :=
  {| data := 3%positive; nd := 1; dimensions := [2]; strides := [16];
     descr := complex128 |}.

(** A 2 x 2 image of type int16, in block 4. *)
Definition short22 : PyArrayObject :=
  {| data := 4%positive; nd := 2; dimensions := [2; 2]; strides := [4; 2];
     descr := int16 |}.

(** A kernel of three float64 taps, in block 5. *)
Definition kernel3 : PyArrayObject :=
  {| data := 5%positive; nd := 1; dimensions := [3]; strides := [8];
     descr := float64 |}.

Definition start : state :=
  {| mem := {[ 1%positive := SReal <$> [1; 2; 3; 4]%float;
               2%positive := SReal <$> [1; 0; 0]%float;
               3%positive := [SComplex 1 1; SComplex 0 2]%float;
               4%positive := SReal <$> [1; 2; 3; 4]%float;
               5%positive := SReal <$> [0.25; 0.5; 0.25]%float ]};
     calls := [] |}.

End Reference.

(** ** Contracts of the parts that are not in the module *)

(** What a coercion of Numeric guarantees about the array it returns. *)
Abbreviation coercion :=
  (PyArrayObject -> Z -> Z -> Z -> heap -> heap * option PyArrayObject).

(** A condition some properties are stated under, not a fact about Numeric
    that this file establishes: the coercion returns no array of a type
    below the type of a numeric array it is given (it returns NULL
    instead). *)
Definition never_narrows (coerce : coercion) : Prop :=
  forall op type lo hi h h' a,
    coerce op type lo hi h = (h', Some a) ->
    is_numeric (OBJECTTYPE op) -> OBJECTTYPE op <= type.

(** The array returned has the requested type, a rank within the bounds, and
    that many non-negative dimensions and strides. *)
Definition well_formed (coerce : coercion) : Prop :=
  forall op type lo hi h h' a,
    coerce op type lo hi h = (h', Some a) ->
    PyArray_DescrFromType type = Some (descr a) /\
    lo <= nd a <= hi /\
    length (DIMS a) = Z.to_nat (nd a) /\
    length (STRIDES a) = Z.to_nat (nd a) /\
    Forall (Z.le 0) (DIMS a).

(** Every block of [h] is in [h'] with the same contents. *)
Definition heap_unchanged (h h' : heap) : Prop :=
  forall l, is_Some (h !! l) -> h' !! l = h !! l.

(** A coercion may allocate, but leaves every block that exists as it is. *)
Definition preserves_blocks (coerce : coercion) : Prop :=
  forall op type lo hi h h' r,
    coerce op type lo hi h = (h', r) -> heap_unchanged h h'.

(** Modelled from the spec: the routines [S_cubic_spline2D], ...,
    [D_IIR_forback2] are not among the sources.  The spec says of them that
    they are "side-effect-free apart from writing the caller-supplied output
    buffer" and that "no component performs in-place mutation of
    caller-supplied input buffers": a call changes no block but the one it is
    given for its output. *)
Definition writes_output_only (core : routine -> arguments -> heap -> heap * Z) : Prop :=
  forall r a h l, l <> output_of a -> (core r a h).1 !! l = h !! l.

(** Modelled from the spec: [D_quadratic_spline2D] is not among the sources.
    The spec says of its concrete scenario, "qspline2d(image=[[1,2],[3,4]]
    float64, lambda=0, precision=1e-6) must return a 2×2 float64 array and
    status 0": called on a buffer that holds 1, 2, 3, 4 as a 2 x 2 image
    with row-major strides, with lambda 0 and the precision 1e-6, the routine
    returns the status 0. *)
Definition scenario_status (core : routine -> arguments -> heap -> heap * Z) : Prop :=
  forall image coeffs h,
    h !! image = Some (SReal <$> [1; 2; 3; 4]%float) ->
    (core D_quadratic_spline2D
       (spline2D_args image coeffs 2 2 0 [2; 1] [2; 1] 1e-6) h).2 = 0.

(** Every block of the heap of [s] is in the heap of [s'], unchanged. *)
Definition unchanged (s s' : state) : Prop := heap_unchanged (mem s) (mem s').

(** The calls made between [s] and [s']. *)
Definition calls_between (s s' : state) (evs : list call_event) : Prop :=
  calls s' = calls s ++ evs.

(** ** Vocabulary of the claims *)

Definition not_implemented : PyErr :=
  ValueError "Smoothing spline not yet implemented.".

Definition precision_too_high : PyErr :=
  ValueError "Precision too high.  Error did not converge.".
Definition problem_in_spline : PyErr := ValueError "Problem occured inside routine".
Definition problem_in_filter : PyErr := ValueError "Problem occured inside routine.".
Definition incorrect_type : PyErr := ValueError "Incorrect type.".


(** How the two spline wrappers report the status of a call. *)
Definition spline_report (ev : call_event) (r : outcome PyArrayObject) : Prop :=
  (status ev = -3 -> r = Raise precision_too_high) /\
  (status ev < 0 -> status ev <> -3 -> r = Raise problem_in_spline) /\
  (0 <= status ev -> exists ck, r = Return ck /\ DATA ck = output_of (actuals ev)).

(** How the two filter wrappers report it. *)
Definition filter_report (ev : call_event) (r : outcome PyArrayObject) : Prop :=
  (status ev < 0 -> r = Raise problem_in_filter) /\
  (0 <= status ev -> exists out, r = Return out /\ DATA out = output_of (actuals ev)).

(** The four operations that take a precision. *)
Inductive operation := Cspline2d | Qspline2d | Symiirorder1 | Symiirorder2.

(** The default precision as the claim tabulates it: by operation and by
    whether the element type is a single-precision one. *)
Definition default_precision (op : operation) (single_type : bool) : float :=
  match op with
  | Cspline2d | Qspline2d => if single_type then 1e-3%float else 1e-6%float
  | Symiirorder1 | Symiirorder2 => if single_type then 1e-6%float else 1e-11%float
  end.

Definition is_single (thetype : Z) : bool :=
  (thetype =? PyArray_FLOAT) || (thetype =? PyArray_CFLOAT).

(** The caller left the precision out (it is then -1.0) or gave one that
    compares [<= 0.0] or [> 1.0]. *)
Definition out_of_range (precision_arg : option float) : Prop :=
  let p := default (-1)%float precision_arg in
  ((p <=? 0) || (1 <? p))%float = true.

(** The routine of [sepfir2d] for each element type. *)
Definition convolve_routine (t : Z) : routine :=
  if t =? PyArray_FLOAT then S_separable_2Dconvolve_mirror
  else if t =? PyArray_DOUBLE then D_separable_2Dconvolve_mirror
  else if t =? PyArray_CFLOAT then C_separable_2Dconvolve_mirror
  else Z_separable_2Dconvolve_mirror.



(** The run from [s] to [s'] with the result [r] has made the one call [ev]:
    it returns an array of the type [t], the one the routine was given to
    write to, when the status is not negative, and raises "Problem occured
    inside routine." when it is. *)
Definition filter_call (s s' : state) (r : outcome PyArrayObject) (ev : call_event)
    (t : Z) : Prop :=
  calls s' = calls s ++ [ev] /\
  (0 <= status ev ->
   exists out, r = Return out /\ OBJECTTYPE out = t /\ DATA out = output_of (actuals ev)) /\
  (status ev < 0 -> r = Raise problem_in_filter).

(** [if (ret < 0) PYERR("Problem occured inside routine."); ... return
    PyArray_Return(out);]: how a filter wrapper ends once its routine has
    returned [ret]. *)
Definition filter_exit (out : PyArrayObject) (ret : Z) : Py PyArrayObject :=
  if ret <? 0 then PYERR "Problem occured inside routine." else mret out.

(** The two tests of [retval] that end [cspline2d] and [qspline2d]. *)
Definition spline_exit (ck : PyArrayObject) (retval : Z) : Py PyArrayObject :=
  if retval =? -3 then PYERR "Precision too high.  Error did not converge."
  else if retval <? 0 then PYERR "Problem occured inside routine"
  else mret ck.

(** Strides, in elements, of a C-contiguous array. *)
Definition row_major (dims : list Z) : list Z := contiguous_strides dims 1.

(** [out] is a new array over the shape of [a]: its block is none of [h],
    it has the rank [rank], the dimensions of [a] and the element type [t],
    and its byte strides, converted by [convert_strides], are the row-major
    strides in elements. *)
Definition new_array_like (h : heap) (a out : PyArrayObject) (rank t : Z) : Prop :=
  h !! DATA out = None /\
  nd out = rank /\
  DIMS out = DIMS a /\
  OBJECTTYPE out = t /\
  convert_strides int_bits (STRIDES out) (replicate (Z.to_nat rank) 0) (ELSIZE out) rank
  = Some (row_major (DIMS a)).

(** The strides, in elements, a call gives for its output. *)
Definition outstrides_of (a : arguments) : list Z :=
  match a with
  | spline2D_args _ _ _ _ _ _ cstrides _ => cstrides
  | convolve_args _ _ _ _ _ _ _ _ _ outstrides => outstrides
  | forback1_args _ _ _ _ _ _ stridey _ => [stridey]
  | cforback1_args _ _ _ _ _ _ stridey _ => [stridey]
  | forback2_args _ _ _ _ _ _ stridey _ => [stridey]
  end.

(** What a wrapper does once its input has been coerced to [a] and the heap
    is [h]: it calls one routine, on [a] and on a new array like [a] with
    row-major strides, and returns that array when the status is not
    negative. *)
Definition returns_new_array (s s' : state) (r : outcome PyArrayObject)
    (h : heap) (a : PyArrayObject) (rank t : Z) : Prop :=
  exists ev out,
    calls_between s s' [ev] /\
    new_array_like h a out rank t /\
    input_of (actuals ev) = DATA a /\
    output_of (actuals ev) = DATA out /\
    outstrides_of (actuals ev) = row_major (DIMS a) /\
    (0 <= status ev -> r = Return out).

(** ** Vocabulary of the further properties *)

(** The strides, in elements, a call gives for its input. *)
Definition instrides_of (a : arguments) : list Z :=
  match a with
  | spline2D_args _ _ _ _ _ strides _ _ => strides
  | convolve_args _ _ _ _ _ _ _ _ instrides _ => instrides
  | forback1_args _ _ _ _ _ stridex _ _ => [stridex]
  | cforback1_args _ _ _ _ _ stridex _ _ => [stridex]
  | forback2_args _ _ _ _ _ stridex _ _ => [stridex]
  end.

(** The extent of the image or signal a call is told. *)
Definition shape_of (a : arguments) : list Z :=
  match a with
  | spline2D_args _ _ M N _ _ _ _ => [M; N]
  | convolve_args _ _ M N _ _ _ _ _ _ => [M; N]
  | forback1_args _ _ _ _ N _ _ _ => [N]
  | cforback1_args _ _ _ _ N _ _ _ => [N]
  | forback2_args _ _ _ _ N _ _ _ => [N]
  end.

(** The two kernels of a convolution, each with the length it is given
    with.  No strides go with them. *)
Definition kernels_of (a : arguments) : list (loc * Z) :=
  match a with
  | convolve_args _ _ _ _ hrow hcol Nhrow Nhcol _ _ => [(hrow, Nhrow); (hcol, Nhcol)]
  | _ => []
  end.

(** The call [ev] reads the array [a] where it lies: it is given the buffer
    of [a], the dimensions of [a], and the byte strides of [a] divided by the
    element size. *)
Definition reads_in_place (ev : call_event) (a : PyArrayObject) : Prop :=
  input_of (actuals ev) = DATA a /\
  shape_of (actuals ev) = DIMS a /\
  instrides_of (actuals ev) = (fun st => st / ELSIZE a) <$> STRIDES a.

(** The offset, in elements, of the element at [index] in a buffer laid out
    with [strides]. *)
Fixpoint offset (strides index : list Z) : Z :=
  match strides, index with
  | st :: strides, i :: index => st * i + offset strides index
  | _, _ => 0
  end.

(** [index] is an index into an array of the shape [shape]. *)
Definition in_shape (index shape : list Z) : Prop :=
  Forall2 (fun i d => 0 <= i < d) index shape.

(** In the heap [h], the output buffer of the call [ev] has one element for
    each index of the shape the call is told, and the output strides take
    every such index to an element of the buffer. *)
Definition output_fits (h : heap) (ev : call_event) : Prop :=
  exists buf,
    h !! output_of (actuals ev) = Some buf /\
    length buf = Z.to_nat (foldr Z.mul 1 (shape_of (actuals ev))) /\
    forall index, in_shape index (shape_of (actuals ev)) ->
      0 <= offset (outstrides_of (actuals ev)) index < Z.of_nat (length buf).

(** A run from [s] to [s'] with the result [r] has called no routine and
    returns no array, or it has called one routine and ends with the array
    that routine was given to write to or with a ValueError. *)
Definition calls_at_most_once (s s' : state) (r : outcome PyArrayObject) : Prop :=
  (calls s' = calls s /\ forall a, r <> Return a) \/
  (exists ev,
     calls s' = calls s ++ [ev] /\
     r <> Raise ArrayError /\ r <> Undefined /\
     forall out, r = Return out -> DATA out = output_of (actuals ev)).

(** The only exceptions [r] can be: the one the array interface left, or a
    ValueError of [errors]. *)
Definition raises_only (errors : list PyErr) (r : outcome PyArrayObject) : Prop :=
  forall e, r = Raise e -> e = ArrayError \/ e ∈ errors.

(** The routines for float32 data. *)
Definition single_precision_routine (r : routine) : bool :=
  match r with
  | S_cubic_spline2D | S_quadratic_spline2D | S_separable_2Dconvolve_mirror
  | S_IIR_forback1 | S_IIR_forback2 => true
  | _ => false
  end.

(** [0.0 < p && p <= 1.0]: the precisions the wrappers let through. *)
Definition in_unit_range (p : float) : bool := ((0 <? p) && (p <=? 1))%float.

(** The precision [q] that follows from the caller's [given]: one within the
    range, or the caller's own NaN. *)
Definition precision_ok (given q : float) : Prop :=
  in_unit_range q = true \/ (PrimFloat.is_nan given = true /\ q = given).

(** The float64 image of block 1 seen transposed: the strides are swapped,
    the array is not contiguous. *)
Definition image22T : PyArrayObject :=
  {| data := 1%positive; nd := 2; dimensions := [2; 2]; strides := [8; 16];
     descr := Reference.float64 |}.

(** The four values of block 4 seen as a kernel of four int16 taps. *)
Definition kernel4s : PyArrayObject :=
  {| data := 4%positive; nd := 1; dimensions := [4]; strides := [2];
     descr := Reference.int16 |}.


(** The two complex128 samples of block 3 seen as a 1 x 2 image. *)
Definition cimage12 : PyArrayObject :=
  {| data := 3%positive; nd := 2; dimensions := [1; 2]; strides := [32; 16];
     descr := Reference.complex128 |}.

(** ** Running a wrapper step by step *)

Ltac py_unfold :=
  unfold cspline2d, qspline2d, FIRsepsym2d, IIRsymorder1, IIRsymorder2,
    spline_switch, FIRsepsym2d_switch, IIRsymorder1_switch, IIRsymorder2_switch,
    call, api_call, nonnull, defined, undefined, PYERR in *;
  cbv beta iota zeta delta [mbind Py_bind mret Py_ret] in *.

(** The steps of a wrapper up to its switch. *)
Ltac py_head :=
  unfold cspline2d, qspline2d, FIRsepsym2d, IIRsymorder1, IIRsymorder2,
    api_call, nonnull, defined;
  cbv beta iota zeta delta [mbind Py_bind mret Py_ret].

Ltac py_cases := repeat (case_match; simplify_eq/=).

(** Case analysis along one run [H : wrapper ... s = (s', r)], leaving the
    goal as it is. *)
Ltac run H :=
  unfold cspline2d, qspline2d, FIRsepsym2d, IIRsymorder1, IIRsymorder2,
    spline_switch, FIRsepsym2d_switch, IIRsymorder1_switch, IIRsymorder2_switch,
    call, api_call, nonnull, defined, undefined, PYERR in H;
  cbv beta iota zeta delta [mbind Py_bind mret Py_ret] in H;
  repeat (match goal with
          | H' : context [match ?x with _ => _ end] |- _ => destruct x eqn:?
          end; simplify_eq).

Ltac one_call Hev :=
  unfold calls_between in Hev; cbn [calls mem] in Hev;
  first [ apply app_inv_head in Hev; simplify_eq
        | apply (f_equal length) in Hev; rewrite length_app in Hev; cbn in Hev; lia ].

Ltac by_type :=
  repeat match goal with
         | H : _ && _ = true |- _ => apply andb_true_iff in H as [-> H]
         | H : (_ =? _) = true |- _ => apply Z.eqb_eq in H; rewrite ?H
         end.

Ltac trace_eq :=
  unfold calls_between in *; cbn [calls mem] in *;
  repeat match goal with
         | H : ?l ++ [_] = ?l ++ [_] |- _ => apply app_inv_head in H; simplify_eq
         | H : ?l = ?l ++ [_] |- _ =>
             apply (f_equal length) in H; rewrite length_app in H; cbn in H; lia
         | H : ?l ++ [_] = ?l |- _ =>
             apply (f_equal length) in H; rewrite length_app in H; cbn in H; lia
         | H : (_ =? _) = true |- _ => apply Z.eqb_eq in H
         | H : (_ =? _) = false |- _ => apply Z.eqb_neq in H
         | H : (_ <? _) = true |- _ => apply Z.ltb_lt in H
         | H : (_ <? _) = false |- _ => apply Z.ltb_ge in H
         end.

(** ** Facts about the working type and the allocator *)

Ltac type_lia :=
  unfold is_real, is_complex, is_numeric, PyArray_CHAR, PyArray_FLOAT, PyArray_DOUBLE,
    PyArray_CFLOAT, PyArray_CDOUBLE, PyArray_OBJECT in *;
  lia.

Ltac solve_types :=
  unfold working_type, PyArray_ObjectType, MIN, MAX, is_real, is_complex, is_numeric,
    OBJECTTYPE, PyArray_CHAR, PyArray_FLOAT, PyArray_DOUBLE, PyArray_CFLOAT,
    PyArray_CDOUBLE, PyArray_OBJECT in *;
  rewrite ?Z.gtb_ltb in *;
  repeat match goal with
         | |- context [?a <? ?b] => destruct (Z.ltb_spec a b)
         | H : context [?a <? ?b] |- _ => destruct (Z.ltb_spec a b)
         end;
  try lia.

Lemma working_type_real image : is_real (working_type image PyArray_DOUBLE).
Proof. solve_types. Qed.

Lemma working_type_range image :
  PyArray_FLOAT <= working_type image PyArray_CDOUBLE <= PyArray_CDOUBLE.
Proof. solve_types. Qed.

Lemma working_type_id image cap :
  PyArray_FLOAT <= OBJECTTYPE image <= cap -> working_type image cap = OBJECTTYPE image.
Proof. solve_types. Qed.

Lemma working_type_le_cap image cap :
  PyArray_FLOAT <= cap -> PyArray_FLOAT <= working_type image cap <= cap.
Proof. solve_types. Qed.

Lemma working_type_complex image :
  is_complex (OBJECTTYPE image) -> working_type image PyArray_DOUBLE = PyArray_DOUBLE.
Proof. solve_types. Qed.

Lemma working_type_four image :
  is_real (working_type image PyArray_CDOUBLE) \/
  is_complex (working_type image PyArray_CDOUBLE).
Proof.
  pose proof (working_type_range image). type_lia.
Qed.

Lemma PyArray_DescrFromType_type t de :
  PyArray_DescrFromType t = Some de -> type_num de = t.
Proof.
  unfold PyArray_DescrFromType. intros H.
  apply fmap_Some in H as (size & _ & ->). reflexivity.
Qed.

Lemma PyArray_FromDims_Some n d type h h' a :
  PyArray_FromDims n d type h = (h', Some a) ->
  h !! data a = None /\
  h' = <[data a := replicate (Z.to_nat (foldr Z.mul 1 (DIMS a))) (zero_of type)]> h /\
  nd a = n /\
  DIMS a = take (Z.to_nat n) d /\
  length (DIMS a) = Z.to_nat n /\
  PyArray_DescrFromType type = Some (descr a) /\
  STRIDES a = contiguous_strides (DIMS a) (ELSIZE a).
Proof.
  unfold PyArray_FromDims. intros H.
  destruct (PyArray_DescrFromType type) as [de|]; [|done].
  case_match; [|done]. simplify_eq/=.
  match goal with H : _ && _ = true |- _ => apply andb_true_iff in H as [Hlen _] end.
  apply bool_decide_eq_true in Hlen.
  split_and!; try done.
  apply not_elem_of_dom, is_fresh.
Qed.

Lemma PyArray_FromDims_None n d type h h' :
  PyArray_FromDims n d type h = (h', None) -> h' = h.
Proof.
  unfold PyArray_FromDims. intros H.
  destruct (PyArray_DescrFromType type) as [de|]; [|by simplify_eq].
  case_match; by simplify_eq.
Qed.

Lemma PyArray_FromDims_unchanged n d type h h' r l :
  PyArray_FromDims n d type h = (h', r) -> is_Some (h !! l) -> h' !! l = h !! l.
Proof.
  intros H [x Hl]. destruct r as [a|].
  - apply PyArray_FromDims_Some in H as (Hfresh & -> & _).
    rewrite lookup_insert_ne; [done|]. intros <-. congruence.
  - by apply PyArray_FromDims_None in H as ->.
Qed.

(** The element type of an allocated array is the one asked for. *)
Lemma PyArray_FromDims_type n d type h h' a :
  PyArray_FromDims n d type h = (h', Some a) -> OBJECTTYPE a = type.
Proof.
  intros H. apply PyArray_FromDims_Some in H as (_ & _ & _ & _ & _ & Hd & _).
  by apply PyArray_DescrFromType_type.
Qed.

Ltac coerced :=
  repeat match goal with
         | H : PyArray_FromDims _ _ _ _ = (_, Some _) |- _ =>
             apply PyArray_FromDims_type in H
         end.

(** ** [convert_strides] divides by the element size *)

Lemma bitshift_loop_zero fuel bitshift :
  bitshift_loop fuel 0 bitshift = Some bitshift.
Proof. destruct fuel; reflexivity. Qed.

Lemma bitshift_loop_log2 fuel : forall size bitshift,
  0 < size -> (Z.to_nat (Z.log2 size) < fuel)%nat ->
  bitshift_loop fuel size bitshift = Some (bitshift + Z.log2 size + 1).
Proof.
  induction fuel as [|fuel IH]; intros size bitshift Hpos Hfuel; [lia|].
  cbn [bitshift_loop].
  destruct (Z.eqb_spec size 0) as [->|_]; [lia|].
  destruct (Z.eq_dec size 1) as [->|Hne].
  - change (Z.shiftr 1 1) with 0. rewrite bitshift_loop_zero.
    f_equal. change (Z.log2 1) with 0. lia.
  - assert (Hlog : 0 < Z.log2 size) by (apply Z.log2_pos; lia).
    assert (Hhalf : 0 < Z.shiftr size 1).
    { rewrite Z.shiftr_div_pow2 by lia. change (2 ^ 1) with 2.
      apply Z.div_str_pos. lia. }
    rewrite IH; [|done|].
    + rewrite Z.log2_shiftr by done. f_equal. lia.
    + rewrite Z.log2_shiftr by done. lia.
Qed.

(** A negative size is never shifted down to 0. *)
Lemma bitshift_loop_negative fuel : forall size bitshift,
  size < 0 -> bitshift_loop fuel size bitshift = None.
Proof.
  induction fuel as [|fuel IH]; intros size bitshift Hneg; cbn [bitshift_loop];
    destruct (Z.eqb_spec size 0); try lia; [done|].
  apply IH. rewrite Z.shiftr_div_pow2 by lia. change (2 ^ 1) with 2.
  apply Z.div_lt_upper_bound; lia.
Qed.

Lemma stride_loop_spec bitshift instrides todo : forall n convstrides,
  (n + todo <= length instrides)%nat ->
  (n + todo <= length convstrides)%nat ->
  exists out,
    stride_loop todo n instrides convstrides bitshift = Some out /\
    length out = length convstrides /\
    forall i, out !! i =
      if bool_decide (n <= i < n + todo)%nat
      then (fun s => Z.shiftr s bitshift) <$> instrides !! i
      else convstrides !! i.
Proof.
  induction todo as [|todo IH]; intros n convstrides Hin Hconv; cbn [stride_loop].
  - exists convstrides. split_and!; [done..|].
    intros i. case_bool_decide; [lia|done].
  - destruct (lookup_lt_is_Some_2 instrides n) as [s Hs]; [lia|].
    rewrite Hs. rewrite bool_decide_true by lia.
    destruct (IH (S n) (<[n := Z.shiftr s bitshift]> convstrides))
      as (out & Hout & Hlen & Hlook); [lia|rewrite length_insert; lia|].
    exists out. split_and!; [done|by rewrite Hlen, length_insert|].
    intros i. rewrite Hlook.
    destruct (decide (i = n)) as [->|Hi].
    + rewrite bool_decide_false by lia. rewrite bool_decide_true by lia.
      rewrite list_lookup_insert_eq by lia. by rewrite Hs.
    + rewrite list_lookup_insert_ne by done.
      repeat case_bool_decide; try lia; done.
Qed.

(** For a positive size with enough iterations allowed, every entry below
    [N] is the stride shifted right by [log2 size] bits. *)
Lemma convert_strides_log2 fuel instrides convstrides size N :
  0 < size -> (Z.to_nat (Z.log2 size) < fuel)%nat ->
  (Z.to_nat N <= length instrides)%nat ->
  (Z.to_nat N <= length convstrides)%nat ->
  exists out,
    convert_strides fuel instrides convstrides size N = Some out /\
    length out = length convstrides /\
    forall n s, (n < Z.to_nat N)%nat -> instrides !! n = Some s ->
      out !! n = Some (Z.shiftr s (Z.log2 size)).
Proof.
  intros Hpos Hfuel Hin Hconv. unfold convert_strides.
  rewrite bitshift_loop_log2 by done.
  replace (-1 + Z.log2 size + 1) with (Z.log2 size) by lia.
  destruct (Z.leb_spec N 0) as [HN|HN].
  { exists convstrides. split_and!; [done..|]. intros n s Hn. lia. }
  pose proof (Z.log2_nonneg size) as Hlog.
  destruct (Z.ltb_spec (Z.log2 size) 0) as [?|_]; [lia|].
  destruct (stride_loop_spec (Z.log2 size) instrides (Z.to_nat N) 0%nat convstrides)
    as (out & Hout & Hlen & Hlook); [lia..|].
  exists out. split_and!; [done..|].
  intros n s Hn Hs. rewrite Hlook, bool_decide_true by lia. by rewrite Hs.
Qed.

Lemma shiftr_mul_pow2 n b : 0 <= b -> Z.shiftr (n * 2 ^ b) b = n.
Proof.
  intros Hb. rewrite Z.shiftr_div_pow2 by done.
  apply Z.div_mul. apply Z.pow_nonzero; lia.
Qed.

Lemma row_major2 M N : row_major [M; N] = [N; 1].
Proof. unfold row_major. cbn. by rewrite Z.mul_1_r. Qed.

Lemma row_major1 N : row_major [N] = [1].
Proof. reflexivity. Qed.

(** [convert_strides] on the strides of a contiguous array of rank 1 or 2. *)
Lemma convert_contiguous es dims :
  es = 4 \/ es = 8 \/ es = 16 ->
  (length dims = 1 \/ length dims = 2)%nat ->
  convert_strides int_bits (contiguous_strides dims es)
    (replicate (length dims) 0) es (Z.of_nat (length dims))
  = Some (row_major dims).
Proof.
  intros Hes Hlen. unfold row_major.
  assert (Hpow : exists b, 0 <= b < 5 /\ es = 2 ^ b).
  { destruct Hes as [->|[->| ->]]; [exists 2|exists 3|exists 4]; split; (lia || reflexivity). }
  destruct Hpow as (b & Hb & ->).
  assert (Hpos : 0 < 2 ^ b) by (apply Z.pow_pos_nonneg; lia).
  destruct (convert_strides_log2 int_bits (contiguous_strides dims (2 ^ b))
              (replicate (length dims) 0) (2 ^ b) (Z.of_nat (length dims)))
    as (out & -> & Hlen' & Hlook).
  { done. }
  { rewrite Z.log2_pow2 by lia. unfold int_bits. lia. }
  { destruct dims as [|? [|? [|]]]; cbn in *; lia. }
  { rewrite length_replicate. lia. }
  rewrite Z.log2_pow2 in Hlook by lia. rewrite length_replicate in Hlen'.
  rewrite Nat2Z.id in Hlook.
  assert (Hone : Z.shiftr (2 ^ b) b = 1).
  { rewrite <- (Z.mul_1_l (2 ^ b)) at 1. apply shiftr_mul_pow2. lia. }
  f_equal.
  destruct dims as [|M [|N [|]]]; cbn [length] in Hlen, Hlen', Hlook; try lia.
  - destruct out as [|x [|]]; cbn in Hlen'; try lia.
    pose proof (Hlook 0%nat (2 ^ b) ltac:(lia) eq_refl) as H0.
    rewrite Hone in H0. by simplify_eq/=.
  - destruct out as [|x [|y [|]]]; cbn in Hlen'; try lia.
    pose proof (Hlook 0%nat (N * 2 ^ b) ltac:(lia) eq_refl) as H0.
    pose proof (Hlook 1%nat (2 ^ b) ltac:(lia) eq_refl) as H1.
    rewrite shiftr_mul_pow2 in H0 by lia. rewrite Hone in H1.
    simplify_eq/=. by rewrite Z.mul_1_r.
Qed.

Lemma elsize_of_working_type t de :
  PyArray_FLOAT <= t <= PyArray_CDOUBLE ->
  PyArray_DescrFromType t = Some de ->
  elsize de = 4 \/ elsize de = 8 \/ elsize de = 16.
Proof.
  intros Ht Hde.
  assert (Hcases : t = 8 \/ t = 9 \/ t = 10 \/ t = 11)
    by (unfold PyArray_FLOAT, PyArray_CDOUBLE in Ht; lia).
  destruct Hcases as [->|[->|[->| ->]]]; vm_compute in Hde; simplify_eq; cbn; auto.
Qed.

(** ** The caller's buffers *)

Lemma heap_unchanged_refl h : heap_unchanged h h.
Proof. by intros l _. Qed.

Lemma heap_unchanged_trans h1 h2 h3 :
  heap_unchanged h1 h2 -> heap_unchanged h2 h3 -> heap_unchanged h1 h3.
Proof.
  intros H12 H23 l Hl. rewrite H23, H12; [done..|]. by rewrite H12.
Qed.

Lemma alloc_unchanged n d type h h' r :
  PyArray_FromDims n d type h = (h', r) -> heap_unchanged h h'.
Proof. intros H l. by apply PyArray_FromDims_unchanged with n d type r. Qed.

(** A routine run on a buffer allocated after [h] leaves the blocks of [h]
    alone. *)
Lemma alloc_call_unchanged core n d type h h1 h2 h3 out r a st :
  writes_output_only core ->
  heap_unchanged h h1 ->
  PyArray_FromDims n d type h1 = (h2, Some out) ->
  core r a h2 = (h3, st) ->
  output_of a = DATA out ->
  heap_unchanged h h3.
Proof.
  intros Hcore H01 Halloc Hcall Hout l Hl.
  pose proof (Hcore r a h2 l) as Hframe. rewrite Hcall in Hframe. cbn in Hframe.
  pose proof (alloc_unchanged _ _ _ _ _ _ Halloc) as H12.
  apply PyArray_FromDims_Some in Halloc as (Hfresh & _).
  assert (Hl1 : is_Some (h1 !! l)) by (by rewrite H01).
  rewrite Hframe, H12, H01; [done..|].
  rewrite Hout. intros ->. unfold DATA in *. rewrite Hfresh in Hl1.
  by destruct Hl1.
Qed.

Ltac frame Hfrom Hcontig Hcore :=
  cbn [mem calls] in *;
  repeat match goal with
         | H : PyArray_FromObject _ _ _ _ _ _ = _ |- _ => apply Hfrom in H
         | H : PyArray_ContiguousFromObject _ _ _ _ _ _ = _ |- _ => apply Hcontig in H
         | H : PyArray_FromDims _ _ _ _ = (_, None) |- _ => apply alloc_unchanged in H
         end;
  try match goal with
      | Ha : PyArray_FromDims _ _ _ _ = (_, Some _), Hc : _ _ _ _ = (_, _) |- _ =>
          eapply (alloc_call_unchanged _ _ _ _ _ _ _ _ _ _ _ _ Hcore); [|exact Ha|exact Hc|done]
      | Ha : PyArray_FromDims _ _ _ _ = (_, Some _) |- _ => apply alloc_unchanged in Ha
      end;
  eauto 8 using heap_unchanged_refl, heap_unchanged_trans.

(** ** Coerced arrays and the arrays allocated over them *)

Lemma coerced_shape (coerce : coercion) input t k h h0 a :
  well_formed coerce ->
  coerce input t k k h = (h0, Some a) ->
  PyArray_FLOAT <= t <= PyArray_CDOUBLE ->
  k = 1 \/ k = 2 ->
  PyArray_DescrFromType t = Some (descr a) /\
  (ELSIZE a = 4 \/ ELSIZE a = 8 \/ ELSIZE a = 16) /\
  length (DIMS a) = Z.to_nat k /\
  length (STRIDES a) = Z.to_nat k /\
  Forall (Z.le 0) (DIMS a).
Proof.
  intros Hwf Hco Ht Hk.
  destruct (Hwf _ _ _ _ _ _ _ Hco) as (Hde & Hnd & Hdims & Hstr & Hpos).
  assert (nd a = k) as Hrank by lia. rewrite Hrank in *.
  split_and!; try done. by eapply elsize_of_working_type.
Qed.

(** Allocation over the shape of a coerced array succeeds and gives a new
    array like it. *)
Lemma alloc_like (coerce : coercion) input t k h h0 a h1 :
  well_formed coerce ->
  coerce input t k k h = (h0, Some a) ->
  PyArray_FLOAT <= t <= PyArray_CDOUBLE ->
  k = 1 \/ k = 2 ->
  exists h2 out,
    PyArray_FromDims k (DIMS a) t h1 = (h2, Some out) /\
    new_array_like h1 a out k t.
Proof.
  intros Hwf Hco Ht Hk.
  destruct (coerced_shape _ _ _ _ _ _ _ Hwf Hco Ht Hk) as (Hde & Hes & Hdims & _ & Hpos).
  assert (Htake : take (Z.to_nat k) (DIMS a) = DIMS a) by (apply take_ge; lia).
  destruct (PyArray_FromDims k (DIMS a) t h1) as [h2 [out|]] eqn:Halloc.
  - exists h2, out. split; [done|].
    pose proof (PyArray_FromDims_type _ _ _ _ _ _ Halloc) as Hty.
    apply PyArray_FromDims_Some in Halloc
      as (Hfresh & _ & Hnd & Hd & _ & Hde' & Hstrides).
    rewrite Htake in Hd.
    unfold new_array_like. split_and!; try done.
    rewrite Hstrides, Hd.
    assert (ELSIZE out = ELSIZE a) as -> by (unfold ELSIZE; congruence).
    rewrite <- Hdims.
    replace k with (Z.of_nat (length (DIMS a))) by lia.
    apply convert_contiguous; [done|lia].
  - exfalso. unfold PyArray_FromDims in Halloc. rewrite Hde, Htake in Halloc.
    rewrite bool_decide_true in Halloc by done.
    assert (forallb (Z.leb 0) (DIMS a) = true) as Hall.
    { apply Is_true_true, forallb_True. eapply Forall_impl; [done|].
      intros x Hx. by apply Is_true_true, Z.leb_le. }
    rewrite Hall in Halloc. done.
Qed.

(** The strides of a coerced array can be converted. *)
Lemma coerced_strides (coerce : coercion) input t k h h0 a :
  well_formed coerce ->
  coerce input t k k h = (h0, Some a) ->
  PyArray_FLOAT <= t <= PyArray_CDOUBLE ->
  k = 1 \/ k = 2 ->
  exists instrides,
    convert_strides int_bits (STRIDES a) (replicate (Z.to_nat k) 0) (ELSIZE a) k
    = Some instrides /\
    length instrides = Z.to_nat k.
Proof.
  intros Hwf Hco Ht Hk.
  destruct (coerced_shape _ _ _ _ _ _ _ Hwf Hco Ht Hk) as (_ & Hes & _ & Hstr & _).
  destruct (convert_strides_log2 int_bits (STRIDES a) (replicate (Z.to_nat k) 0)
              (ELSIZE a) k) as (out & Hout & Hlen & _).
  - lia.
  - destruct Hes as [->|[->| ->]]; vm_compute; lia.
  - lia.
  - rewrite length_replicate. lia.
  - exists out. split; [done|]. by rewrite Hlen, length_replicate.
Qed.

Lemma coerced_dims2 (coerce : coercion) input t h h0 a :
  well_formed coerce -> coerce input t 2 2 h = (h0, Some a) ->
  PyArray_FLOAT <= t <= PyArray_CDOUBLE ->
  exists M N, DIMS a = [M; N].
Proof.
  intros Hwf Hco Ht.
  destruct (coerced_shape _ _ _ _ _ _ _ Hwf Hco Ht (or_intror eq_refl))
    as (_ & _ & Hdims & _).
  destruct (DIMS a) as [|M [|N [|]]]; cbn in Hdims; try lia. eauto.
Qed.

Lemma coerced_dims1 (coerce : coercion) input t h h0 a :
  well_formed coerce -> coerce input t 1 1 h = (h0, Some a) ->
  PyArray_FLOAT <= t <= PyArray_CDOUBLE ->
  exists N, DIMS a = [N].
Proof.
  intros Hwf Hco Ht.
  destruct (coerced_shape _ _ _ _ _ _ _ Hwf Hco Ht (or_introl eq_refl))
    as (_ & _ & Hdims & _).
  destruct (DIMS a) as [|N [|]]; cbn in Hdims; try lia. eauto.
Qed.

Ltac fwd H := rewrite H; cbv beta iota zeta; cbn [mem calls].

Ltac fwd_type Hw Hlike :=
  rewrite Hw in *;
  cbn [Z.eqb Pos.eqb PyArray_FLOAT PyArray_DOUBLE PyArray_CFLOAT PyArray_CDOUBLE andb
       lookup list_lookup];
  cbv beta iota zeta; cbn [mem calls];
  match goal with
  | |- context [match ?f ?r ?a ?h with pair _ _ => _ end] =>
      destruct (f r a h) as [? ?] eqn:?
  end;
  cbv beta iota zeta;
  repeat match goal with
         | |- context [if ?b then _ else _] => destruct b eqn:?
         end;
  cbn [fst snd];
  eexists _, _;
  (split_and!;
   [reflexivity | exact Hlike | reflexivity | reflexivity | reflexivity
   | cbn [status]; intros; trace_eq; (done || lia) ]).

(** ** The reference instance meets the contracts *)

Lemma from_object_Some op type lo hi h h' a :
  Reference.from_object op type lo hi h = (h', Some a) ->
  lo <= nd op <= hi /\
  length (dimensions op) = Z.to_nat (nd op) /\
  length (strides op) = Z.to_nat (nd op) /\
  Forall (Z.le 0) (dimensions op) /\
  PyArray_DescrFromType (OBJECTTYPE op) = Some (descr op) /\
  ((OBJECTTYPE op = type /\ a = op /\ h' = h) \/
   (OBJECTTYPE op < type <= PyArray_CDOUBLE /\
    nd a = nd op /\ dimensions a = dimensions op /\
    length (strides a) = length (strides op) /\
    PyArray_DescrFromType type = Some (descr a) /\
    exists buf, h !! data op = Some buf /\
      h !! data a = None /\ h' = <[data a := Reference.cast type <$> buf]> h)).
Proof.
  unfold Reference.from_object. intros H.
  case_match eqn:Hvalid; [done|].
  apply negb_false_iff in Hvalid.
  repeat (apply andb_true_iff in Hvalid as [Hvalid ?]).
  repeat match goal with
         | H : bool_decide _ = true |- _ => apply bool_decide_eq_true in H
         | H : forallb _ _ = true |- _ => apply Is_true_true, forallb_True in H
         | H : (_ <=? _) = true |- _ => apply Z.leb_le in H
         end.
  split_and!; try done.
  { eapply Forall_impl; [done|]. intros x Hx. by apply Z.leb_le, Is_true_true. }
  destruct (Z.eqb_spec (OBJECTTYPE op) type).
  { simplify_eq. by left. }
  case_match eqn:Hup; [|done].
  repeat (apply andb_true_iff in Hup as [Hup ?]).
  apply Z.ltb_lt in Hup.
  repeat case_match; simplify_eq/=. right.
  split_and!; try done; try lia; try (by apply Z.leb_le);
    try (by cbn; rewrite length_fmap).
  eexists. split_and!; [done| |done]. apply not_elem_of_dom, is_fresh.
Qed.

Lemma from_object_None op type lo hi h h' :
  Reference.from_object op type lo hi h = (h', None) -> h' = h.
Proof.
  unfold Reference.from_object. intros H. repeat case_match; by simplify_eq.
Qed.

Lemma from_object_never_narrows : never_narrows Reference.from_object.
Proof.
  intros op type lo hi h h' a H _.
  apply from_object_Some in H as (_ & _ & _ & _ & _ & [(? & _)|(? & _)]); lia.
Qed.

Lemma from_object_well_formed : well_formed Reference.from_object.
Proof.
  intros op type lo hi h h' a H.
  apply from_object_Some in H
    as (? & ? & ? & ? & ? & [(<- & -> & _)|(? & Hnd & Hdims & Hstr & ? & _)]).
  - done.
  - unfold DIMS, STRIDES. rewrite Hnd, Hdims, Hstr. done.
Qed.

Lemma from_object_preserves_blocks : preserves_blocks Reference.from_object.
Proof.
  intros op type lo hi h h' r H l [x Hl]. destruct r as [a|].
  - apply from_object_Some in H
      as (_ & _ & _ & _ & _ & [(_ & _ & ->)|(_ & _ & _ & _ & _ & buf & _ & Hfresh & ->)]);
      [done|].
    rewrite lookup_insert_ne; [done|]. intros <-. congruence.
  - by apply from_object_None in H as ->.
Qed.

Lemma fill_writes_output_only ret : writes_output_only (Reference.fill ret).
Proof. intros r a h l Hl. cbn. by rewrite lookup_alter_ne. Qed.

(** ** The wrappers once the input is coerced *)

(** After a call of the routine [rt] with [args] in the place of the switch:
    the one call is recorded and the wrapper ends as [filter_call] says. *)
Lemma filter_call_intro core rt args out t s0 :
  OBJECTTYPE out = t -> output_of args = DATA out ->
  let run := (call core rt args ≫= filter_exit out) s0 in
  exists ev, filter_call s0 run.1 run.2 ev t /\ callee ev = rt /\ actuals ev = args.
Proof.
  intros Ht Hout run. subst run. unfold call, filter_exit.
  cbv beta iota zeta delta [mbind Py_bind mret Py_ret].
  destruct (core rt args (mem s0)) as [h ret].
  eexists {| callee := rt; actuals := args; status := ret |}.
  unfold filter_call, PYERR. cbn [callee actuals status].
  destruct (Z.ltb_spec ret 0); cbn [fst snd calls];
    (split_and!; [reflexivity| |intros|reflexivity|reflexivity]); try lia; try done.
  intros _. by exists out.
Qed.



Lemma FIRsepsym2d_after_coercion gnuc api core image hrow hcol s h1 a h2 a_hrow h3 a_hcol :
  well_formed (PyArray_FromObject api) ->
  well_formed (PyArray_ContiguousFromObject api) ->
  let t := working_type image PyArray_CDOUBLE in
  PyArray_FromObject api image t 2 2 (mem s) = (h1, Some a) ->
  PyArray_ContiguousFromObject api hrow t 1 1 h1 = (h2, Some a_hrow) ->
  PyArray_ContiguousFromObject api hcol t 1 1 h2 = (h3, Some a_hcol) ->
  exists h4 out M N Nhrow Nhcol instrides,
    PyArray_FromDims 2 (DIMS a) t h3 = (h4, Some out) /\
    DIMS a = [M; N] /\ DIMS a_hrow = [Nhrow] /\ DIMS a_hcol = [Nhcol] /\
    FIRsepsym2d gnuc api core image hrow hcol s
    = (FIRsepsym2d_switch gnuc core t a out a_hrow a_hcol M N Nhrow Nhcol
         instrides [N; 1] ≫= filter_exit out)
        {| mem := h4; calls := calls s |}.
Proof.
  intros Hwf Hwfc t Hco Hrow Hcol. subst t.
  pose proof (working_type_range image) as Ht.
  destruct (alloc_like _ _ _ _ _ _ _ h3 Hwf Hco Ht (or_intror eq_refl))
    as (h4 & out & Halloc & Hlike).
  destruct (coerced_strides _ _ _ _ _ _ _ Hwf Hco Ht (or_intror eq_refl))
    as (instrides & Hconv & _).
  destruct (coerced_dims2 _ _ _ _ _ _ Hwf Hco Ht) as (M & N & Hd).
  destruct (coerced_dims1 _ _ _ _ _ _ Hwfc Hrow Ht) as (Nhrow & Hdr).
  destruct (coerced_dims1 _ _ _ _ _ _ Hwfc Hcol Ht) as (Nhcol & Hdc).
  exists h4, out, M, N, Nhrow, Nhcol, instrides. split_and!; [done..|].
  py_head. fwd Hco. fwd Hrow. fwd Hcol. fwd Halloc. rewrite !Hd, !Hdr, !Hdc.
  cbn [lookup list_lookup]. cbv beta iota zeta.
  change [0; 0] with (replicate (Z.to_nat 2) 0). fwd Hconv.
  reflexivity.
Qed.

Lemma cspline2d_after_coercion api core image lambda precision s h a :
  well_formed (PyArray_FromObject api) ->
  let t := working_type image PyArray_DOUBLE in
  PyArray_FromObject api image t 2 2 (mem s) = (h, Some a) ->
  exists h2 ck M N instrides,
    PyArray_FromDims 2 (DIMS a) t h = (h2, Some ck) /\
    DIMS a = [M; N] /\
    cspline2d api core image lambda precision s
    = (spline_switch core S_cubic_spline2D D_cubic_spline2D t a ck M N
         (default 0%float lambda) instrides [N; 1] (default (-1)%float precision)
       ≫= spline_exit ck)
        {| mem := h2; calls := calls s |}.
Proof.
  intros Hwf t Hco. subst t.
  assert (Ht : PyArray_FLOAT <= working_type image PyArray_DOUBLE <= PyArray_CDOUBLE).
  { pose proof (working_type_le_cap image PyArray_DOUBLE). type_lia. }
  destruct (alloc_like _ _ _ _ _ _ _ h Hwf Hco Ht (or_intror eq_refl))
    as (h2 & ck & Halloc & Hlike).
  destruct (coerced_strides _ _ _ _ _ _ _ Hwf Hco Ht (or_intror eq_refl))
    as (instrides & Hconv & _).
  destruct (coerced_dims2 _ _ _ _ _ _ Hwf Hco Ht) as (M & N & Hd).
  exists h2, ck, M, N, instrides. split_and!; [done..|].
  py_head. fwd Hco. fwd Halloc. rewrite !Hd. cbn [lookup list_lookup]. cbv beta iota zeta.
  change [0; 0] with (replicate (Z.to_nat 2) 0). fwd Hconv.
  reflexivity.
Qed.


Lemma FIRsepsym2d_incorrect_type gnuc api core image hrow hcol s :
  gnuc = true \/ OBJECTTYPE image < PyArray_CFLOAT ->
  (FIRsepsym2d gnuc api core image hrow hcol s).2 <> Raise incorrect_type.
Proof.
  intros Hok. pose proof (working_type_range image) as Hrange.
  destruct (FIRsepsym2d gnuc api core image hrow hcol s) as [s' r] eqn:H.
  cbn [snd]. intros ->.
  assert (Hlow : OBJECTTYPE image < PyArray_CFLOAT ->
                 is_real (working_type image PyArray_CDOUBLE)) by solve_types.
  destruct Hok as [->|Hlt].
  - run H. cbn [andb] in *. trace_eq. type_lia.
  - apply Hlow in Hlt. run H. trace_eq. type_lia.
Qed.


(** ** The claims *)

(** C1.  Smoothing is unimplemented where the wrapper says so, in
    [qspline2d]: called with a [lambda] that is not 0 (a NaN included) it
    fails with "Smoothing spline not yet implemented." before the image is
    coerced, a buffer is allocated or a routine is called: the state is the
    one it was entered with.  [cspline2d] leaves smoothing to the cubic
    routines, whose code is in another file: it has no such error of its
    own, and it never computes with another [lambda] than the caller's: the
    only routines it calls are the cubic ones, with the caller's [lambda],
    and once the image is coerced it does call one, on the coerced image. *)
Theorem smoothing_guard api core image lambda precision s :
  (lambda =? 0)%float = false ->
  qspline2d api core image (Some lambda) precision s = (s, Raise not_implemented) /\
  (forall s' r,
     cspline2d api core image (Some lambda) precision s = (s', r) ->
     r <> Raise not_implemented /\
     exists evs, calls_between s s' evs /\
       Forall (fun ev =>
                 (callee ev = S_cubic_spline2D \/ callee ev = D_cubic_spline2D) /\
                 lambda_of (actuals ev) = Some lambda) evs) /\
  (well_formed (PyArray_FromObject api) ->
   forall h a,
     PyArray_FromObject api image (working_type image PyArray_DOUBLE) 2 2 (mem s)
     = (h, Some a) ->
     exists ev,
       calls (cspline2d api core image (Some lambda) precision s).1 = calls s ++ [ev] /\
       (callee ev = S_cubic_spline2D \/ callee ev = D_cubic_spline2D) /\
       input_of (actuals ev) = DATA a /\
       lambda_of (actuals ev) = Some lambda).
Proof.
  intros Hne. split_and!.
  - unfold qspline2d. cbn [from_option id]. rewrite Hne. reflexivity.
  - intros s' r H. unfold calls_between. py_unfold. py_cases; split; try done.
    all: first [ by exists []; rewrite app_nil_r
               | eexists [_]; split; [reflexivity|];
                 apply Forall_singleton; cbn; split;
                   [first [by left | by right] | done] ].
  - intros Hwf h a Hco.
    destruct (cspline2d_after_coercion api core image (Some lambda) precision s h a Hwf Hco)
      as (h2 & ck & M & N & instrides & _ & _ & ->).
    unfold spline_switch, call, spline_exit, PYERR.
    cbv beta iota zeta delta [mbind Py_bind mret Py_ret]. cbn [from_option id mem calls].
    destruct (working_type_real image) as [Hw|Hw]; rewrite Hw;
      cbn [Z.eqb Pos.eqb PyArray_FLOAT PyArray_DOUBLE];
      match goal with
      | |- context [match ?f ?r ?x ?g with pair _ _ => _ end] =>
          destruct (f r x g) as [g' ret]
      end;
      eexists {| callee := _; actuals := _; status := ret |};
      (split_and!; [repeat case_match; reflexivity| |reflexivity|reflexivity]);
      cbn [callee]; auto.
Qed.

Lemma smoothing_guard_witness :
  qspline2d Reference.numeric (Reference.fill 0) Reference.image22
    (Some 0.5%float) (Some 1e-6%float) Reference.start
  = (Reference.start, Raise not_implemented) /\
  exists ev,
    calls (cspline2d Reference.numeric (Reference.fill 0) Reference.image22
             (Some 0.5%float) (Some 1e-6%float) Reference.start).1 = [ev] /\
    callee ev = D_cubic_spline2D /\
    lambda_of (actuals ev) = Some 0.5%float.
Proof.
  pose proof (smoothing_guard Reference.numeric (Reference.fill 0) Reference.image22
                0.5%float (Some 1e-6%float) Reference.start eq_refl) as (Hq & _ & Hc).
  split; [exact Hq|].
  destruct (Hc from_object_well_formed (mem Reference.start) Reference.image22 eq_refl)
    as (ev & Hev & _ & _ & Hlam).
  exists ev. split_and!; [exact Hev| |exact Hlam].
  vm_compute in Hev. by simplify_eq.
Defined.




(** C3 (as the code has it).  When a wrapper has called its routine and the
    routine returned [status]: [cspline2d] and [qspline2d] raise "Precision
    too high.  Error did not converge." for -3, "Problem occured inside
    routine" for every other negative status, and return the array for a
    status from 0 on; [symiirorder1] and [symiirorder2] raise "Problem
    occured inside routine." for every negative status, -3 included, and
    return the array for a status from 0 on.  A wrapper that has called no
    routine returns no array. *)
Theorem status_report gnuc api core input lambda c0 z1 r0 omega precision s s' r :
  (forall ev, calls_between s s' [ev] ->
     (cspline2d api core input lambda precision s = (s', r) -> spline_report ev r) /\
     (qspline2d api core input lambda precision s = (s', r) -> spline_report ev r) /\
     (IIRsymorder1 gnuc api core input c0 z1 precision s = (s', r) -> filter_report ev r) /\
     (IIRsymorder2 api core input r0 omega precision s = (s', r) -> filter_report ev r)) /\
  (calls s' = calls s ->
     cspline2d api core input lambda precision s = (s', r) \/
     qspline2d api core input lambda precision s = (s', r) \/
     IIRsymorder1 gnuc api core input c0 z1 precision s = (s', r) \/
     IIRsymorder2 api core input r0 omega precision s = (s', r) ->
     forall a, r <> Return a).
Proof.
  split.
  - intros ev Hev.
    split_and!; intros H; unfold spline_report, filter_report;
      py_unfold; py_cases; trace_eq; cbn [status actuals output_of];
      split_and!; intros; try lia; try done; eauto.
  - intros Hev [H|[H|[H|H]]] a ->; py_unfold; py_cases; trace_eq.
Qed.

(** C3, as stated, fails for the filters: [symiirorder1] reports the status
    -3 of [D_IIR_forback1] with the message of every other failure. *)
Lemma symiirorder1_reports_m3_as_any_failure :
  let run := IIRsymorder1 true Reference.numeric (Reference.fill (-3)) Reference.signal3
               {| real := 1; imag := 0 |} {| real := 0.5; imag := 0 |} None
               Reference.start in
  status <$> calls run.1 = [-3] /\
  run.2 = Raise (ValueError "Problem occured inside routine.") /\
  run.2 <> Raise (ValueError "Precision too high.  Error did not converge.").
Proof. vm_compute. split_and!; done. Qed.

Lemma status_report_witness :
  let run := qspline2d Reference.numeric (Reference.fill (-3)) Reference.image22
               None None Reference.start in
  exists ev, calls_between Reference.start run.1 [ev] /\ status ev = -3 /\
             run.2 = Raise precision_too_high.
Proof.
  set (run := qspline2d Reference.numeric (Reference.fill (-3)) Reference.image22
                None None Reference.start).
  set (ev := {| callee := D_quadratic_spline2D;
                actuals := spline2D_args 1%positive 6%positive 2 2 0 [2; 1] [2; 1] 1e-6;
                status := -3 |}).
  assert (Hev : calls_between Reference.start run.1 [ev]) by (vm_compute; reflexivity).
  exists ev. split_and!; [done..|].
  refine (proj1 (proj1 (proj2 (proj1
            (status_report true Reference.numeric (Reference.fill (-3)) Reference.image22
               None {| real := 1; imag := 0 |} {| real := 1; imag := 0 |} 0%float 0%float
               None Reference.start run.1 run.2) ev Hev)) _) _);
    [apply surjective_pairing|done].
Defined.

(** C4 (as the code has it).  When the precision is left out or compares
    [<= 0.0] or [> 1.0], the routine is called with the default of the
    operation and the working type: 1e-3 (float32) and 1e-6 (float64) for
    [cspline2d] and [qspline2d], 1e-6 (single-precision types, converted to
    [float] by [symiirorder1]) and 1e-11 (double-precision types) for
    [symiirorder1] and [symiirorder2].  The default of a double-precision
    type is the smaller one. *)
Theorem default_precision_passed gnuc api core input lambda c0 z1 r0 omega
    precision s s' r ev :
  out_of_range precision ->
  calls_between s s' [ev] ->
  (cspline2d api core input lambda precision s = (s', r) ->
   precision_of (actuals ev)
   = Some (default_precision Cspline2d (is_single (working_type input PyArray_DOUBLE)))) /\
  (qspline2d api core input lambda precision s = (s', r) ->
   precision_of (actuals ev)
   = Some (default_precision Qspline2d (is_single (working_type input PyArray_DOUBLE)))) /\
  (IIRsymorder1 gnuc api core input c0 z1 precision s = (s', r) ->
   let single_type := is_single (working_type input PyArray_CDOUBLE) in
   let d := default_precision Symiirorder1 single_type in
   precision_of (actuals ev) = Some (if single_type then single d else d)) /\
  (IIRsymorder2 api core input r0 omega precision s = (s', r) ->
   precision_of (actuals ev)
   = Some (default_precision Symiirorder2 (is_single (working_type input PyArray_DOUBLE)))) /\
  (forall op, (default_precision op false <? default_precision op true)%float = true).
Proof.
  unfold out_of_range. intros Hout Hev.
  split_and!; [intros H..|by intros []];
    run H; one_call Hev; unfold is_single; by_type;
    cbn [actuals precision_of]; unfold clamp_precision; rewrite Hout; reflexivity.
Qed.

(** C4, as stated, fails where it says that the default differs by filter
    order: with the precision left out, [symiirorder1] and [symiirorder2]
    call their routines with the same 1e-11 on a float64 signal, and
    [cspline2d] and [qspline2d] with the same 1e-6 on a float64 image. *)
Lemma default_precision_same_for_both_orders :
  let precisions (run : state * outcome PyArrayObject) :=
    (fun ev => (callee ev, precision_of (actuals ev))) <$> calls run.1 in
  precisions (IIRsymorder1 true Reference.numeric (Reference.fill 0) Reference.signal3
                {| real := 1; imag := 0 |} {| real := 0.5; imag := 0 |} None Reference.start)
  = [(D_IIR_forback1, Some 1e-11%float)] /\
  precisions (IIRsymorder2 Reference.numeric (Reference.fill 0) Reference.signal3
                0.5%float 1%float None Reference.start)
  = [(D_IIR_forback2, Some 1e-11%float)] /\
  precisions (cspline2d Reference.numeric (Reference.fill 0) Reference.image22
                None None Reference.start)
  = [(D_cubic_spline2D, Some 1e-6%float)] /\
  precisions (qspline2d Reference.numeric (Reference.fill 0) Reference.image22
                None None Reference.start)
  = [(D_quadratic_spline2D, Some 1e-6%float)].
Proof. vm_compute. split_and!; reflexivity. Qed.

Lemma default_precision_passed_witness :
  let run := IIRsymorder2 Reference.numeric (Reference.fill 0) Reference.signal3
               0.5%float 1%float (Some 5%float) Reference.start in
  out_of_range (Some 5%float) /\
  exists ev, calls_between Reference.start run.1 [ev] /\
             precision_of (actuals ev) = Some 1e-11%float.
Proof.
  set (run := IIRsymorder2 Reference.numeric (Reference.fill 0) Reference.signal3
                0.5%float 1%float (Some 5%float) Reference.start).
  set (ev := {| callee := D_IIR_forback2;
                actuals := forback2_args 0.5 1 2%positive 6%positive 3 1 1 1e-11;
                status := 0 |}).
  assert (Hout : out_of_range (Some 5%float)) by reflexivity.
  assert (Hev : calls_between Reference.start run.1 [ev]) by (vm_compute; reflexivity).
  split; [done|]. exists ev. split; [done|].
  refine (proj1 (proj2 (proj2 (proj2
            (default_precision_passed true Reference.numeric (Reference.fill 0)
               Reference.signal3 None {| real := 1; imag := 0 |} {| real := 1; imag := 0 |}
               0.5%float 1%float (Some 5%float) Reference.start run.1 run.2 ev
               Hout Hev)))) _).
  apply surjective_pairing.
Defined.




(** C6 (as the code has it).  The working type of [sepfir2d] is the image's
    own type for float32, float64, complex64 and complex128, and float32 for
    every type below them.  Once the image and the two kernels are coerced,
    the routine of the working type is called ([S_], [D_], [C_] or
    [Z_separable_2Dconvolve_mirror]) on the coerced image, and the result is
    an array of that type (for a real working type, or compiled by GNU C);
    compiled without GNU C the two complex cases are absent, and a complex
    working type ends in "Incorrect type." with no routine called.  An image
    of another type does not fail with "Incorrect type.": compiled by GNU C
    that error is never raised, and in no case for a type below complex64. *)
Theorem sepfir2d_dispatch gnuc api core image hrow hcol s :
  let t := working_type image PyArray_CDOUBLE in
  let run := FIRsepsym2d gnuc api core image hrow hcol s in
  (is_real (OBJECTTYPE image) \/ is_complex (OBJECTTYPE image) -> t = OBJECTTYPE image) /\
  (OBJECTTYPE image < PyArray_FLOAT -> t = PyArray_FLOAT) /\
  (gnuc = true \/ OBJECTTYPE image < PyArray_CFLOAT -> run.2 <> Raise incorrect_type) /\
  (well_formed (PyArray_FromObject api) ->
   well_formed (PyArray_ContiguousFromObject api) ->
   forall h1 a h2 a_hrow h3 a_hcol,
     PyArray_FromObject api image t 2 2 (mem s) = (h1, Some a) ->
     PyArray_ContiguousFromObject api hrow t 1 1 h1 = (h2, Some a_hrow) ->
     PyArray_ContiguousFromObject api hcol t 1 1 h2 = (h3, Some a_hcol) ->
     (gnuc = true \/ is_real t ->
      exists ev, filter_call s run.1 run.2 ev t /\
                 callee ev = convolve_routine t /\
                 input_of (actuals ev) = DATA a) /\
     (gnuc = false -> is_complex t ->
      run.2 = Raise incorrect_type /\ calls run.1 = calls s)).
Proof.
  intros t run. subst t run.
  pose proof (working_type_range image) as Hrange.
  split_and!.
  - intros Ht. apply working_type_id. type_lia.
  - intros Ht. solve_types.
  - apply FIRsepsym2d_incorrect_type.
  - intros Hwf Hwfc h1 a h2 a_hrow h3 a_hcol Hco Hrow Hcol.
    destruct (FIRsepsym2d_after_coercion gnuc api core image hrow hcol s _ _ _ _ _ _
                Hwf Hwfc Hco Hrow Hcol)
      as (h4 & out & M & N & Nhrow & Nhcol & instrides & Halloc & Hd & Hdr & Hdc & ->).
    apply PyArray_FromDims_type in Halloc.
    split.
    + intros Hok.
      assert (Hsw : FIRsepsym2d_switch gnuc core (working_type image PyArray_CDOUBLE)
                      a out a_hrow a_hcol M N Nhrow Nhcol instrides [N; 1]
                    = call core (convolve_routine (working_type image PyArray_CDOUBLE))
                        (convolve_args (DATA a) (DATA out) M N (DATA a_hrow) (DATA a_hcol)
                           Nhrow Nhcol instrides [N; 1])).
      { unfold FIRsepsym2d_switch, convolve_routine.
        destruct (working_type_four image) as [[Hw|Hw]|[Hw|Hw]]; rewrite Hw;
          try reflexivity;
          (destruct Hok as [->|Hreal]; [reflexivity|rewrite Hw in Hreal; type_lia]). }
      rewrite Hsw.
      match goal with
      | |- context [call core ?rt ?args] =>
          destruct (filter_call_intro core rt args out _ {| mem := h4; calls := calls s |}
                      Halloc eq_refl) as (ev & Hcall & Hcallee & Hargs)
      end.
      exists ev. split; [exact Hcall|]. split; [exact Hcallee|]. by rewrite Hargs.
    + intros -> Hcomplex. unfold FIRsepsym2d_switch.
      destruct Hcomplex as [Hw|Hw]; rewrite Hw; split; reflexivity.
Qed.

(** C6, as stated, fails where it says that any other element type ends in
    an incorrect-type error: on the int16 image [sepfir2d] never raises
    "Incorrect type.", whatever the array interface, the routines and the
    compiler; with int16 kernels the image is worked on as float32 by
    [S_separable_2Dconvolve_mirror] and a float32 array is returned. *)
Lemma sepfir2d_accepts_int16 :
  (forall gnuc api core hrow hcol s,
     (FIRsepsym2d gnuc api core Reference.short22 hrow hcol s).2
     <> Raise incorrect_type) /\
  let run := FIRsepsym2d true Reference.numeric (Reference.fill 0) Reference.short22
               kernel4s kernel4s Reference.start in
  callee <$> calls run.1 = [S_separable_2Dconvolve_mirror] /\
  exists out, run.2 = Return out /\ DIMS out = [2; 2] /\ descr out = Reference.float32.
Proof.
  split.
  - intros. apply FIRsepsym2d_incorrect_type. right. reflexivity.
  - vm_compute. split; [reflexivity|]. eexists. split_and!; reflexivity.
Qed.

Lemma sepfir2d_dispatch_witness :
  let run := FIRsepsym2d true Reference.numeric (Reference.fill 0) Reference.image22
               Reference.kernel3 Reference.kernel3 Reference.start in
  exists ev, filter_call Reference.start run.1 run.2 ev PyArray_DOUBLE /\
             callee ev = D_separable_2Dconvolve_mirror /\
             input_of (actuals ev) = 1%positive.
Proof.
  refine (proj1 (proj2 (proj2 (proj2
            (sepfir2d_dispatch true Reference.numeric (Reference.fill 0) Reference.image22
               Reference.kernel3 Reference.kernel3 Reference.start)))
            from_object_well_formed from_object_well_formed
            (mem Reference.start) Reference.image22
            (mem Reference.start) Reference.kernel3
            (mem Reference.start) Reference.kernel3 eq_refl eq_refl eq_refl)
            (or_introl eq_refl)).
Defined.

(** C7.  Once the array interface has coerced the input to an array [a] (of
    the working type, of rank 2 for [cspline2d], [qspline2d] and [sepfir2d],
    of rank 1 for [symiirorder1] and [symiirorder2]), every operation
    allocates a new array with the dimensions of [a] and the working type,
    whose strides in elements are the row-major ones, has its routine write
    to it with those strides, and returns it whenever the routine's status is
    not negative.  ([qspline2d]: for [lambda = 0]; [sepfir2d] and
    [symiirorder1]: for a real working type, or compiled by GNU C.)  In the
    concrete case, [qspline2d] on the float64 image [[1, 2], [3, 4]] with
    [lambda = 0] and [precision = 1e-6], [D_quadratic_spline2D] is called
    once; with the status 0 the spec gives it there, the result is a 2 x 2
    float64 array. *)
Theorem result_buffer gnuc api core :
  well_formed (PyArray_FromObject api) ->
  well_formed (PyArray_ContiguousFromObject api) ->
  (forall image lambda precision s h a,
     let t := working_type image PyArray_DOUBLE in
     PyArray_FromObject api image t 2 2 (mem s) = (h, Some a) ->
     let run := cspline2d api core image lambda precision s in
     returns_new_array s run.1 run.2 h a 2 t) /\
  (forall image lambda precision s h a,
     let t := working_type image PyArray_DOUBLE in
     (default 0 lambda =? 0)%float = true ->
     PyArray_FromObject api image t 2 2 (mem s) = (h, Some a) ->
     let run := qspline2d api core image lambda precision s in
     returns_new_array s run.1 run.2 h a 2 t) /\
  (forall image hrow hcol s h1 a h2 a_hrow h3 a_hcol,
     let t := working_type image PyArray_CDOUBLE in
     gnuc = true \/ is_real t ->
     PyArray_FromObject api image t 2 2 (mem s) = (h1, Some a) ->
     PyArray_ContiguousFromObject api hrow t 1 1 h1 = (h2, Some a_hrow) ->
     PyArray_ContiguousFromObject api hcol t 1 1 h2 = (h3, Some a_hcol) ->
     let run := FIRsepsym2d gnuc api core image hrow hcol s in
     returns_new_array s run.1 run.2 h3 a 2 t) /\
  (forall sig c0 z1 precision s h a,
     let t := working_type sig PyArray_CDOUBLE in
     gnuc = true \/ is_real t ->
     PyArray_FromObject api sig t 1 1 (mem s) = (h, Some a) ->
     let run := IIRsymorder1 gnuc api core sig c0 z1 precision s in
     returns_new_array s run.1 run.2 h a 1 t) /\
  (forall sig r0 omega precision s h a,
     let t := working_type sig PyArray_DOUBLE in
     PyArray_FromObject api sig t 1 1 (mem s) = (h, Some a) ->
     let run := IIRsymorder2 api core sig r0 omega precision s in
     returns_new_array s run.1 run.2 h a 1 t) /\
  (scenario_status core ->
   let run := qspline2d Reference.numeric core Reference.image22
                (Some 0%float) (Some 1e-6%float) Reference.start in
   exists ev,
     calls run.1 = [ev] /\
     callee ev = D_quadratic_spline2D /\
     status ev = 0 /\
     run.2 = Return {| data := 6%positive; nd := 2; dimensions := [2; 2];
                       strides := [16; 8]; descr := Reference.float64 |}).
Proof.
  intros Hwf Hwfc.
  assert (Hcap : forall image, PyArray_FLOAT <= working_type image PyArray_DOUBLE
                               <= PyArray_CDOUBLE).
  { intros image. pose proof (working_type_le_cap image PyArray_DOUBLE). type_lia. }
  split_and!.
  - intros image lambda precision s h a t Hco run. subst t run.
    destruct (alloc_like _ _ _ _ _ _ _ h Hwf Hco (Hcap _) (or_intror eq_refl))
      as (h2 & out & Halloc & Hlike).
    destruct (coerced_strides _ _ _ _ _ _ _ Hwf Hco (Hcap _) (or_intror eq_refl))
      as (instrides & Hconv & _).
    destruct (coerced_dims2 _ _ _ _ _ _ Hwf Hco (Hcap _)) as (M & N & Hd).
    unfold returns_new_array. py_unfold.
    fwd Hco. fwd Halloc. rewrite !Hd. cbn [lookup list_lookup]. cbv beta iota zeta.
    change [0; 0] with (replicate (Z.to_nat 2) 0). fwd Hconv.
    rewrite row_major2.
    destruct (working_type_real image) as [Hw|Hw]; fwd_type Hw Hlike.
  - intros image lambda precision s h a t Hlam Hco run. subst t run.
    destruct (alloc_like _ _ _ _ _ _ _ h Hwf Hco (Hcap _) (or_intror eq_refl))
      as (h2 & out & Halloc & Hlike).
    destruct (coerced_strides _ _ _ _ _ _ _ Hwf Hco (Hcap _) (or_intror eq_refl))
      as (instrides & Hconv & _).
    destruct (coerced_dims2 _ _ _ _ _ _ Hwf Hco (Hcap _)) as (M & N & Hd).
    unfold returns_new_array. py_unfold. rewrite Hlam. cbn [negb].
    fwd Hco. fwd Halloc. rewrite !Hd. cbn [lookup list_lookup]. cbv beta iota zeta.
    change [0; 0] with (replicate (Z.to_nat 2) 0). fwd Hconv.
    rewrite row_major2.
    destruct (working_type_real image) as [Hw|Hw]; fwd_type Hw Hlike.
  - intros image hrow hcol s h1 a h2 a_hrow h3 a_hcol t Hok Hco Hrow Hcol run. subst t run.
    pose proof (working_type_range image) as Ht.
    destruct (alloc_like _ _ _ _ _ _ _ h3 Hwf Hco Ht (or_intror eq_refl))
      as (h4 & out & Halloc & Hlike).
    destruct (coerced_strides _ _ _ _ _ _ _ Hwf Hco Ht (or_intror eq_refl))
      as (instrides & Hconv & _).
    destruct (coerced_dims2 _ _ _ _ _ _ Hwf Hco Ht) as (M & N & Hd).
    destruct (coerced_dims1 _ _ _ _ _ _ Hwfc Hrow Ht) as (Nhrow & Hdr).
    destruct (coerced_dims1 _ _ _ _ _ _ Hwfc Hcol Ht) as (Nhcol & Hdc).
    unfold returns_new_array. py_unfold.
    fwd Hco. fwd Hrow. fwd Hcol. fwd Halloc. rewrite !Hd, !Hdr, !Hdc.
    cbn [lookup list_lookup]. cbv beta iota zeta.
    change [0; 0] with (replicate (Z.to_nat 2) 0). fwd Hconv.
    rewrite row_major2.
    destruct (working_type_four image) as [[Hw|Hw]|[Hw|Hw]];
      try (destruct Hok as [->|Hreal]; [|rewrite Hw in Hreal; type_lia]);
      fwd_type Hw Hlike.
  - intros sig c0 z1 precision s h a t Hok Hco run. subst t run.
    pose proof (working_type_range sig) as Ht.
    destruct (alloc_like _ _ _ _ _ _ _ h Hwf Hco Ht (or_introl eq_refl))
      as (h2 & out & Halloc & Hlike).
    destruct (coerced_strides _ _ _ _ _ _ _ Hwf Hco Ht (or_introl eq_refl))
      as (instrides & Hconv & Hlen).
    destruct (coerced_dims1 _ _ _ _ _ _ Hwf Hco Ht) as (N & Hd).
    destruct instrides as [|stride [|]]; cbn in Hlen; try lia.
    unfold returns_new_array. py_unfold.
    fwd Hco. fwd Halloc. rewrite !Hd. cbn [lookup list_lookup]. cbv beta iota zeta.
    change [0] with (replicate (Z.to_nat 1) 0). fwd Hconv.
    rewrite row_major1.
    destruct (working_type_four sig) as [[Hw|Hw]|[Hw|Hw]];
      try (destruct Hok as [->|Hreal]; [|rewrite Hw in Hreal; type_lia]);
      fwd_type Hw Hlike.
  - intros sig r0 omega precision s h a t Hco run. subst t run.
    destruct (alloc_like _ _ _ _ _ _ _ h Hwf Hco (Hcap _) (or_introl eq_refl))
      as (h2 & out & Halloc & Hlike).
    destruct (coerced_strides _ _ _ _ _ _ _ Hwf Hco (Hcap _) (or_introl eq_refl))
      as (instrides & Hconv & Hlen).
    destruct (coerced_dims1 _ _ _ _ _ _ Hwf Hco (Hcap _)) as (N & Hd).
    destruct instrides as [|stride [|]]; cbn in Hlen; try lia.
    unfold returns_new_array. py_unfold.
    fwd Hco. fwd Halloc. rewrite !Hd. cbn [lookup list_lookup]. cbv beta iota zeta.
    change [0] with (replicate (Z.to_nat 1) 0). fwd Hconv.
    rewrite row_major1.
    destruct (working_type_real sig) as [Hw|Hw]; fwd_type Hw Hlike.
  - intros Hscen run. subst run. vm_compute.
    match goal with
    | |- context [core ?r ?a ?h] =>
        pose proof (Hscen 1%positive 6%positive h eq_refl) as Hs;
        destruct (core r a h) as [h' ret] eqn:Hc
    end.
    cbn in Hs. subst ret. eexists. split_and!; reflexivity.
Qed.

(** The concrete case, with a routine that meets what the spec says of it:
    the one call has the status 0 and the 2 x 2 float64 array is returned. *)
Lemma result_buffer_witness :
  let run := qspline2d Reference.numeric (Reference.fill 0) Reference.image22
               (Some 0%float) (Some 1e-6%float) Reference.start in
  returns_new_array Reference.start run.1 run.2 (mem Reference.start)
    Reference.image22 2 PyArray_DOUBLE /\
  exists ev,
    calls run.1 = [ev] /\
    callee ev = D_quadratic_spline2D /\
    status ev = 0 /\
    run.2 = Return {| data := 6%positive; nd := 2; dimensions := [2; 2];
                      strides := [16; 8]; descr := Reference.float64 |}.
Proof.
  pose proof (result_buffer true Reference.numeric (Reference.fill 0)
                from_object_well_formed from_object_well_formed)
    as (_ & Hq & _ & _ & _ & Hscenario).
  split.
  - refine (Hq Reference.image22 (Some 0%float) (Some 1e-6%float) Reference.start
              (mem Reference.start) Reference.image22 _ _).
    + reflexivity.
    + vm_compute. reflexivity.
  - apply Hscenario. intros image coeffs h _. reflexivity.
Defined.



(** C9.  The routines write to no block but their output buffer, and a
    coercion changes no block that exists.  Then on every path through every
    wrapper, the ones that fail included, each block that existed when the
    wrapper was entered (the caller's input and kernels among them) holds what
    it held: the output buffer the routine writes to is allocated by the
    wrapper itself. *)
Theorem input_never_written gnuc api core s s' r :
  preserves_blocks (PyArray_FromObject api) ->
  preserves_blocks (PyArray_ContiguousFromObject api) ->
  writes_output_only core ->
  (forall image lambda precision,
     cspline2d api core image lambda precision s = (s', r) -> unchanged s s') /\
  (forall image lambda precision,
     qspline2d api core image lambda precision s = (s', r) -> unchanged s s') /\
  (forall image hrow hcol,
     FIRsepsym2d gnuc api core image hrow hcol s = (s', r) -> unchanged s s') /\
  (forall sig c0 z1 precision,
     IIRsymorder1 gnuc api core sig c0 z1 precision s = (s', r) -> unchanged s s') /\
  (forall sig r0 omega precision,
     IIRsymorder2 api core sig r0 omega precision s = (s', r) -> unchanged s s').
Proof.
  intros Hfrom Hcontig Hcore. unfold unchanged.
  split_and!; intros; match goal with H : _ = (s', r) |- _ => run H end;
    frame Hfrom Hcontig Hcore.
Qed.

Lemma input_never_written_witness :
  let run := FIRsepsym2d true Reference.numeric (Reference.fill 0) Reference.image22
               Reference.kernel3 Reference.kernel3 Reference.start in
  unchanged Reference.start run.1.
Proof.
  refine (proj1 (proj2 (proj2
            (input_never_written true Reference.numeric (Reference.fill 0)
               Reference.start _ _
               from_object_preserves_blocks from_object_preserves_blocks
               (fill_writes_output_only 0))))
            Reference.image22 Reference.kernel3 Reference.kernel3
            (surjective_pairing _)).
Defined.

(** C10.  For an element size that is a power of two, [size = 2^b], and byte
    strides that are non-negative multiples of [size], [convert_strides]
    stores [instrides[n] / size] in [convstrides[n]] for every [n < N] (once
    the first loop is given more than [b] iterations).  For a positive size
    that is not a power of two it stores [instrides[n] >> floor(log2 size)],
    which is division by [2 ^ floor(log2 size) < size] and not division by
    [size]: it is larger for every stride from [size * 2 ^ floor(log2 size)]
    on, a multiple of [size] among them. *)
Theorem convert_strides_shift :
  (forall fuel b size instrides convstrides N,
     0 <= b -> size = 2 ^ b -> (Z.to_nat b < fuel)%nat ->
     (Z.to_nat N <= length instrides)%nat ->
     (Z.to_nat N <= length convstrides)%nat ->
     Forall (fun s => 0 <= s /\ (size | s)) instrides ->
     exists out,
       convert_strides fuel instrides convstrides size N = Some out /\
       forall n s, (n < Z.to_nat N)%nat -> instrides !! n = Some s ->
         out !! n = Some (s / size) /\ s = size * (s / size)) /\
  (forall fuel size instrides convstrides N,
     0 < size -> (forall b, size <> 2 ^ b) ->
     (Z.to_nat (Z.log2 size) < fuel)%nat ->
     (Z.to_nat N <= length instrides)%nat ->
     (Z.to_nat N <= length convstrides)%nat ->
     (exists out,
        convert_strides fuel instrides convstrides size N = Some out /\
        forall n s, (n < Z.to_nat N)%nat -> instrides !! n = Some s ->
          out !! n = Some (Z.shiftr s (Z.log2 size))) /\
     2 ^ Z.log2 size < size /\
     (forall s, Z.shiftr s (Z.log2 size) = s / 2 ^ Z.log2 size) /\
     (forall s, size * 2 ^ Z.log2 size <= s -> s / size < Z.shiftr s (Z.log2 size)) /\
     (exists s, 0 <= s /\ (size | s) /\ Z.shiftr s (Z.log2 size) <> s / size)).
Proof.
  split.
  - intros fuel b size instrides convstrides N Hb -> Hfuel Hin Hconv Hmult.
    assert (Hpos : 0 < 2 ^ b) by (apply Z.pow_pos_nonneg; lia).
    destruct (convert_strides_log2 fuel instrides convstrides (2 ^ b) N)
      as (out & Hout & _ & Hlook); [done|by rewrite Z.log2_pow2|done..|].
    exists out. split; [done|]. intros n s Hn Hs.
    rewrite (Hlook n s Hn Hs), Z.log2_pow2, Z.shiftr_div_pow2 by done.
    split; [done|].
    rewrite Forall_forall in Hmult.
    destruct (Hmult s) as [_ [k ->]]; [by eapply list_elem_of_lookup_2|].
    rewrite Z.div_mul by lia. lia.
  - intros fuel size instrides convstrides N Hpos Hnot Hfuel Hin Hconv.
    pose proof (Z.log2_nonneg size) as Hlog.
    pose proof (Z.log2_spec size Hpos) as [Hlo Hhi].
    assert (Hlt : 2 ^ Z.log2 size < size).
    { destruct (Z.eq_dec (2 ^ Z.log2 size) size) as [Heq|]; [|lia].
      by destruct (Hnot (Z.log2 size)). }
    assert (Hpow : 0 < 2 ^ Z.log2 size) by (apply Z.pow_pos_nonneg; lia).
    assert (Hbig : forall s, size * 2 ^ Z.log2 size <= s ->
                     s / size < Z.shiftr s (Z.log2 size)).
    { intros s Hs. rewrite Z.shiftr_div_pow2 by done.
      apply Z.div_lt_upper_bound; [done|].
      assert (Hq : 2 ^ Z.log2 size <= s / 2 ^ Z.log2 size).
      { apply Z.div_le_lower_bound; [done|]. nia. }
      pose proof (Z.mul_succ_div_gt s (2 ^ Z.log2 size) Hpow). nia. }
    split_and!; [|done|by intros s; apply Z.shiftr_div_pow2|done|].
    + destruct (convert_strides_log2 fuel instrides convstrides size N)
        as (out & Hout & _ & Hlook); [done..|].
      by exists out.
    + exists (size * 2 ^ Z.log2 size). split_and!; [nia|by apply Z.divide_factor_l|].
      specialize (Hbig (size * 2 ^ Z.log2 size)). lia.
Qed.

(** Element size 8 with the strides of a contiguous 2 x 2 float64 array, and
    element size 12 with strides 24 and 12: the first are divided by 8, the
    second by 8 as well, not by 12. *)
Lemma convert_strides_shift_witness :
  (exists out,
     convert_strides int_bits [16; 8] [0; 0] 8 2 = Some out /\
     forall n s, (n < Z.to_nat 2)%nat -> [16; 8] !! n = Some s ->
       out !! n = Some (s / 8) /\ s = 8 * (s / 8)) /\
  (exists out,
     convert_strides int_bits [24; 12] [0; 0] 12 2 = Some out /\
     forall n s, (n < Z.to_nat 2)%nat -> [24; 12] !! n = Some s ->
       out !! n = Some (Z.shiftr s (Z.log2 12))).
Proof.
  split.
  - apply (proj1 convert_strides_shift int_bits 3 8 [16; 8] [0; 0] 2).
    + lia.
    + reflexivity.
    + unfold int_bits. lia.
    + cbn. lia.
    + cbn. lia.
    + constructor; [split; [lia|by exists 2]|].
      constructor; [split; [lia|by exists 1]|]. constructor.
  - apply (proj2 convert_strides_shift int_bits 12 [24; 12] [0; 0] 2).
    + lia.
    + intros b Hb. destruct (Z_lt_le_dec b 4) as [Hlt|Hge].
      * destruct (Z_lt_le_dec b 0) as [Hneg|Hpos].
        -- rewrite Z.pow_neg_r in Hb by done. lia.
        -- assert (b = 0 \/ b = 1 \/ b = 2 \/ b = 3) as [->|[->|[->| ->]]] by lia;
             discriminate Hb.
      * pose proof (Z.pow_le_mono_r 2 4 b ltac:(lia) Hge) as Hle.
        change (2 ^ 4) with 16 in Hle. lia.
    + vm_compute. lia.
    + cbn. lia.
    + cbn. lia.
Defined.

(** ** Further properties *)

(** A NaN compares neither [<= 0.0] nor [> 1.0]: a NaN precision is not
    replaced by the default, and is what the routine is called with. *)
Theorem nan_precision_is_passed_on :
  (forall d, clamp_precision nan d = nan) /\
  (fun ev => precision_of (actuals ev)) <$>
    calls (cspline2d Reference.numeric (Reference.fill 0) Reference.image22
             None (Some nan) Reference.start).1
  = [Some nan].
Proof. split; [intros d|]; reflexivity. Qed.

(** In [cspline2d] and [qspline2d] the working type is float32 or float64,
    so one of the two branches that set [retval] is taken: the status tested
    after them is never an indeterminate value. *)
Theorem spline_retval_is_set core S_routine D_routine image a_image ck M N lambda
    instrides outstrides precision s :
  (spline_switch core S_routine D_routine (working_type image PyArray_DOUBLE)
     a_image ck M N lambda instrides outstrides precision s).2 <> Undefined.
Proof.
  unfold spline_switch, call.
  destruct (working_type_real image) as [-> | ->];
    cbn [Z.eqb Pos.eqb PyArray_FLOAT PyArray_DOUBLE];
    match goal with |- context [match ?c with pair _ _ => _ end] => destruct c end;
    done.
Qed.

(** Compiled without GNU C, the module has no complex cases: the switches of
    [sepfir2d] and [symiirorder1] raise "Incorrect type." on complex64 and
    complex128, before any routine is called. *)
Theorem complex_needs_gnuc core thetype c0 z1 a_image out a_hrow a_hcol
    M N Nhrow Nhcol instrides outstrides stridex stridey precision s :
  is_complex thetype ->
  FIRsepsym2d_switch false core thetype a_image out a_hrow a_hcol M N Nhrow Nhcol
    instrides outstrides s = (s, Raise incorrect_type) /\
  IIRsymorder1_switch false core thetype c0 z1 a_image out N stridex stridey precision s
  = (s, Raise incorrect_type).
Proof. intros [-> | ->]; split; reflexivity. Qed.

Lemma complex_needs_gnuc_witness :
  IIRsymorder1_switch false (Reference.fill 0) PyArray_CDOUBLE
    {| real := 1; imag := 1 |} {| real := 0.5; imag := 0 |}
    Reference.csignal2 Reference.csignal2 2 1 1 1e-11 Reference.start
  = (Reference.start, Raise incorrect_type).
Proof.
  apply (complex_needs_gnuc (Reference.fill 0) PyArray_CDOUBLE
           {| real := 1; imag := 1 |} {| real := 0.5; imag := 0 |}
           Reference.csignal2 Reference.csignal2 Reference.csignal2 Reference.csignal2
           2 2 1 1 [1] [1] 1 1 1e-11 Reference.start).
  right. reflexivity.
Defined.

(** The first loop of [convert_strides] does not end on a negative size:
    whatever the number of iterations allowed, there is no result. *)
Theorem convert_strides_negative_size fuel instrides convstrides size N :
  size < 0 -> convert_strides fuel instrides convstrides size N = None.
Proof.
  intros Hneg. unfold convert_strides. by rewrite bitshift_loop_negative.
Qed.

Lemma convert_strides_negative_size_witness :
  convert_strides int_bits [8] [0] (-8) 1 = None.
Proof. apply convert_strides_negative_size. lia. Defined.

(** *** [convert_strides] in closed form *)

Lemma stride_loop_None bitshift instrides todo : forall n convstrides,
  (n <= length instrides)%nat -> (n <= length convstrides)%nat ->
  (length instrides < n + todo \/ length convstrides < n + todo)%nat ->
  stride_loop todo n instrides convstrides bitshift = None.
Proof.
  induction todo as [|todo IH]; intros n convstrides Hin Hconv Hout; [lia|].
  cbn [stride_loop].
  destruct (instrides !! n) as [s|] eqn:Hs; [|done].
  apply lookup_lt_Some in Hs.
  case_bool_decide; [|done].
  apply IH; rewrite ?length_insert; lia.
Qed.

Lemma convert_strides_closed fuel instrides convstrides size N :
  0 < size -> (Z.to_nat (Z.log2 size) < fuel)%nat ->
  (Z.to_nat N <= length instrides)%nat ->
  (Z.to_nat N <= length convstrides)%nat ->
  convert_strides fuel instrides convstrides size N
  = Some (((fun s => s / 2 ^ Z.log2 size) <$> take (Z.to_nat N) instrides)
          ++ drop (Z.to_nat N) convstrides).
Proof.
  intros Hpos Hfuel Hin Hconv. unfold convert_strides.
  rewrite bitshift_loop_log2 by done.
  replace (-1 + Z.log2 size + 1) with (Z.log2 size) by lia.
  pose proof (Z.log2_nonneg size) as Hlog.
  destruct (Z.leb_spec N 0) as [HN|HN].
  { replace (Z.to_nat N) with 0%nat by lia. by rewrite take_0, drop_0. }
  destruct (Z.ltb_spec (Z.log2 size) 0) as [?|_]; [lia|].
  destruct (stride_loop_spec (Z.log2 size) instrides (Z.to_nat N) 0%nat convstrides)
    as (out & -> & Hlen & Hlook); [lia..|].
  f_equal. apply list_eq. intros i. rewrite Hlook.
  case_bool_decide as Hi.
  - rewrite lookup_app_l by (rewrite length_fmap, length_take; lia).
    rewrite list_lookup_fmap, lookup_take_lt by lia.
    destruct (instrides !! i); [|done]. cbn. by rewrite Z.shiftr_div_pow2.
  - rewrite lookup_app_r by (rewrite length_fmap, length_take; lia).
    rewrite length_fmap, length_take, lookup_drop. f_equal. lia.
Qed.

(** For a positive element size (and enough iterations allowed to the first
    loop), [convert_strides] writes exactly the first [N] entries of
    [convstrides] and leaves the others as they were; each entry written is
    the floor of the stride divided by [2 ^ floor(log2 size)], for a negative
    stride as for a positive one ([>>] on a negative [int] taken as the
    arithmetic shift): a multiple [k * d], of either sign, becomes [k]. *)
Theorem convert_strides_floor fuel instrides convstrides size N :
  0 < size -> (Z.to_nat (Z.log2 size) < fuel)%nat ->
  (Z.to_nat N <= length instrides)%nat ->
  (Z.to_nat N <= length convstrides)%nat ->
  convert_strides fuel instrides convstrides size N
  = Some (((fun s => s / 2 ^ Z.log2 size) <$> take (Z.to_nat N) instrides)
          ++ drop (Z.to_nat N) convstrides) /\
  (forall k, k * 2 ^ Z.log2 size / 2 ^ Z.log2 size = k) /\
  (forall s, 2 ^ Z.log2 size * (s / 2 ^ Z.log2 size) <= s
             < 2 ^ Z.log2 size * (s / 2 ^ Z.log2 size) + 2 ^ Z.log2 size).
Proof.
  intros Hpos Hfuel Hin Hconv.
  assert (Hd : 0 < 2 ^ Z.log2 size) by (apply Z.pow_pos_nonneg; [lia|apply Z.log2_nonneg]).
  split_and!.
  - by apply convert_strides_closed.
  - intros k. apply Z.div_mul. lia.
  - intros s. pose proof (Z.mul_div_le s _ Hd). pose proof (Z.mul_succ_div_gt s _ Hd). lia.
Qed.

(** A reversed first axis: the strides -16 and 8 of float64 elements become
    -2 and 1, and the third entry of the destination is not written. *)
Lemma convert_strides_floor_witness :
  convert_strides int_bits [-16; 8; 5] [0; 0; 7] 8 2 = Some [-2; 1; 7].
Proof.
  refine (proj1 (convert_strides_floor int_bits [-16; 8; 5] [0; 0; 7] 8 2 _ _ _ _)).
  - lia.
  - vm_compute. lia.
  - cbn. lia.
  - cbn. lia.
Defined.

(** When [convert_strides] has no defined result, for a size that fits an
    [int]: exactly when the size is negative (the first loop does not end),
    or something is to be converted and either the size is 0 (the shift
    count is -1) or one of the two arrays has fewer than [N] entries.  In
    particular the 32 iterations of an [int] are enough for every positive
    size. *)
Theorem convert_strides_undefined_iff instrides convstrides size N :
  size < 2 ^ 31 ->
  convert_strides int_bits instrides convstrides size N = None <->
  size < 0 \/
  (0 < N /\ (size = 0 \/ (length instrides < Z.to_nat N)%nat
                      \/ (length convstrides < Z.to_nat N)%nat)).
Proof.
  intros Hint.
  destruct (Z.lt_trichotomy size 0) as [Hneg|[->|Hpos]].
  - unfold convert_strides. rewrite bitshift_loop_negative by done.
    split; [by left|done].
  - unfold convert_strides. rewrite bitshift_loop_zero.
    destruct (Z.leb_spec N 0); [split; [done|lia]|].
    cbn. split; [|done]. intros _. right. split; [done|by left].
  - assert (Hfuel : (Z.to_nat (Z.log2 size) < int_bits)%nat).
    { assert (Z.log2 size < 31) by (apply Z.log2_lt_pow2; lia).
      pose proof (Z.log2_nonneg size). unfold int_bits. lia. }
    destruct (decide (Z.to_nat N <= length instrides
                      /\ Z.to_nat N <= length convstrides)%nat) as [[Hi Hc]|Hout].
    + rewrite convert_strides_closed by done. split; [done|]. lia.
    + split; [intros _; right; lia|intros _].
      unfold convert_strides. rewrite bitshift_loop_log2 by done.
      pose proof (Z.log2_nonneg size).
      destruct (Z.leb_spec N 0); [lia|].
      destruct (Z.ltb_spec (-1 + Z.log2 size + 1) 0); [done|].
      apply stride_loop_None; lia.
Qed.

(** An element size of 0, and a destination that is too short. *)
Lemma convert_strides_undefined_iff_witness :
  convert_strides int_bits [8] [0] 0 1 = None /\
  convert_strides int_bits [16; 8] [0] 8 2 = None.
Proof.
  split.
  - apply (proj2 (convert_strides_undefined_iff [8] [0] 0 1 ltac:(lia))).
    right. split; [lia|by left].
  - apply (proj2 (convert_strides_undefined_iff [16; 8] [0] 8 2 ltac:(lia))).
    right. split; [lia|]. right. right. cbn. lia.
Defined.

(** *** The paths through the wrappers *)

Lemma working_type_in_range image cap :
  cap = PyArray_DOUBLE \/ cap = PyArray_CDOUBLE ->
  PyArray_FLOAT <= working_type image cap <= PyArray_CDOUBLE.
Proof.
  intros [-> | ->]; [|apply working_type_range].
  pose proof (working_type_le_cap image PyArray_DOUBLE). type_lia.
Qed.

(** When the two coercions return well-formed arrays, no wrapper does
    anything C leaves undefined: [DIMS(a)[0]] and [DIMS(a)[1]] exist, the
    element size is positive so that the first loop of [convert_strides] ends
    with a shift count that is not negative, the strides it reads and the
    local array it writes have the entries it indexes, and the status is set
    before it is tested. *)
Theorem wrappers_never_undefined gnuc api core s :
  well_formed (PyArray_FromObject api) ->
  well_formed (PyArray_ContiguousFromObject api) ->
  (forall image lambda precision,
     (cspline2d api core image lambda precision s).2 <> Undefined) /\
  (forall image lambda precision,
     (qspline2d api core image lambda precision s).2 <> Undefined) /\
  (forall image hrow hcol,
     (FIRsepsym2d gnuc api core image hrow hcol s).2 <> Undefined) /\
  (forall sig c0 z1 precision,
     (IIRsymorder1 gnuc api core sig c0 z1 precision s).2 <> Undefined) /\
  (forall sig r0 omega precision,
     (IIRsymorder2 api core sig r0 omega precision s).2 <> Undefined).
Proof.
  intros Hwf Hwfc.
  split_and!; intros;
    match goal with |- (?w).2 <> _ => destruct w as [s' r] eqn:H end;
    cbn [snd]; intros ->; run H.
  all: try match goal with
    | Hco : PyArray_FromObject _ _ (working_type ?i ?cap) 2 2 _ = (_, Some _) |- _ =>
        let Ht := fresh in
        assert (Ht : PyArray_FLOAT <= working_type i cap <= PyArray_CDOUBLE)
          by (apply working_type_in_range; auto);
        destruct (coerced_dims2 _ _ _ _ _ _ Hwf Hco Ht) as (? & ? & Hd);
        destruct (coerced_strides _ _ _ _ _ _ _ Hwf Hco Ht (or_intror eq_refl))
          as (? & Hconv & Hlen)
    | Hco : PyArray_FromObject _ _ (working_type ?i ?cap) 1 1 _ = (_, Some _) |- _ =>
        let Ht := fresh in
        assert (Ht : PyArray_FLOAT <= working_type i cap <= PyArray_CDOUBLE)
          by (apply working_type_in_range; auto);
        destruct (coerced_dims1 _ _ _ _ _ _ Hwf Hco Ht) as (? & Hd);
        destruct (coerced_strides _ _ _ _ _ _ _ Hwf Hco Ht (or_introl eq_refl))
          as (? & Hconv & Hlen)
    end.
  all: try (rewrite Hd in *; simplify_eq/=).
  all: try match goal with
    | H : (working_type ?i PyArray_DOUBLE =? _) = false |- _ =>
        destruct (working_type_real i) as [Hw|Hw]; rewrite Hw in *; done
    end.
  all: try (change [0; 0] with (replicate (Z.to_nat 2) 0) in *; congruence).
  all: try (change [0] with (replicate (Z.to_nat 1) 0) in *; congruence).
  all: try match goal with
    | Hco : PyArray_ContiguousFromObject _ _ _ 1 1 _ = (_, Some ?a),
      Hn : DIMS ?a !! 0%nat = None,
      Ht : PyArray_FLOAT <= _ <= PyArray_CDOUBLE |- _ =>
        destruct (coerced_dims1 _ _ _ _ _ _ Hwfc Hco Ht) as (? & Hd');
        rewrite Hd' in Hn; done
    | Hn : ?l !! 0%nat = None, Hl : length ?l = Z.to_nat 1 |- _ =>
        destruct l; cbn in Hl; [lia|done]
    end.
Qed.

Lemma wrappers_never_undefined_witness :
  (FIRsepsym2d true Reference.numeric (Reference.fill 0) Reference.image22
     Reference.kernel3 Reference.kernel3 Reference.start).2 <> Undefined.
Proof.
  apply (proj1 (proj2 (proj2
           (wrappers_never_undefined true Reference.numeric (Reference.fill 0)
              Reference.start from_object_well_formed from_object_well_formed)))).
Defined.

(** Every run of every wrapper calls at most one routine.  A run that calls
    none returns no array.  A run that calls one ends with a ValueError or
    with the array the routine was given to write to, never with the
    exception of the array interface nor in undefined behaviour. *)
Theorem one_call_at_the_end gnuc api core s :
  (forall image lambda precision,
     let run := cspline2d api core image lambda precision s in
     calls_at_most_once s run.1 run.2) /\
  (forall image lambda precision,
     let run := qspline2d api core image lambda precision s in
     calls_at_most_once s run.1 run.2) /\
  (forall image hrow hcol,
     let run := FIRsepsym2d gnuc api core image hrow hcol s in
     calls_at_most_once s run.1 run.2) /\
  (forall sig c0 z1 precision,
     let run := IIRsymorder1 gnuc api core sig c0 z1 precision s in
     calls_at_most_once s run.1 run.2) /\
  (forall sig r0 omega precision,
     let run := IIRsymorder2 api core sig r0 omega precision s in
     calls_at_most_once s run.1 run.2).
Proof.
  split_and!; intros; subst run;
    match goal with |- calls_at_most_once _ (?w).1 _ => destruct w as [s' r] eqn:H end;
    cbn [fst snd]; unfold calls_at_most_once; run H; cbn [calls mem];
    first [ by left
          | right; eexists {| callee := _; actuals := _; status := _ |};
            cbn [callee actuals status output_of];
            split_and!; [reflexivity|done|done|intros ? [= <-]; reflexivity] ].
Qed.

(** The exceptions of each wrapper.  Besides the exception the array
    interface leaves behind a NULL, [cspline2d] raises only "Precision too
    high.  Error did not converge." and "Problem occured inside routine";
    [qspline2d] those two and "Smoothing spline not yet implemented.";
    [symiirorder2] only "Problem occured inside routine." (with the full
    stop the spline wrappers leave out); [sepfir2d] and [symiirorder1] only
    that one when the module is compiled by GNU C, whose switch covers every
    working type, and "Incorrect type." besides when it is not. *)
Theorem wrapper_errors (gnuc : bool) api core s :
  (forall image lambda precision,
     raises_only [precision_too_high; problem_in_spline]
       (cspline2d api core image lambda precision s).2) /\
  (forall image lambda precision,
     raises_only [not_implemented; precision_too_high; problem_in_spline]
       (qspline2d api core image lambda precision s).2) /\
  (forall image hrow hcol,
     raises_only (if gnuc then [problem_in_filter] else [incorrect_type; problem_in_filter])
       (FIRsepsym2d gnuc api core image hrow hcol s).2) /\
  (forall sig c0 z1 precision,
     raises_only (if gnuc then [problem_in_filter] else [incorrect_type; problem_in_filter])
       (IIRsymorder1 gnuc api core sig c0 z1 precision s).2) /\
  (forall sig r0 omega precision,
     raises_only [problem_in_filter]
       (IIRsymorder2 api core sig r0 omega precision s).2).
Proof.
  assert (Hfour : forall image,
            let t := working_type image PyArray_CDOUBLE in
            (t =? PyArray_FLOAT) = false -> (t =? PyArray_DOUBLE) = false ->
            (t =? PyArray_CFLOAT) = false -> (t =? PyArray_CDOUBLE) = false -> False).
  { intros image t. subst t. pose proof (working_type_range image).
    intros. trace_eq. type_lia. }
  assert (Htwo : forall image,
            let t := working_type image PyArray_DOUBLE in
            (t =? PyArray_FLOAT) = false -> (t =? PyArray_DOUBLE) = false -> False).
  { intros image t. subst t. destruct (working_type_real image) as [-> | ->]; done. }
  split_and!; intros;
    match goal with |- raises_only _ (?w).2 => destruct w as [s' r] eqn:H end;
    cbn [snd]; intros e ->; run H; auto;
    try (right; destruct gnuc; set_solver);
    exfalso; cbn [andb] in *; eauto.
Qed.

(** When [sepfir2d] or [symiirorder1] does end with "Incorrect type.", the
    module was compiled without GNU C, the input was of a complex type (or of
    a type above them), and no routine has been called. *)
Theorem incorrect_type_when gnuc api core input hrow hcol c0 z1 precision s s' :
  FIRsepsym2d gnuc api core input hrow hcol s = (s', Raise incorrect_type) \/
  IIRsymorder1 gnuc api core input c0 z1 precision s = (s', Raise incorrect_type) ->
  gnuc = false /\ PyArray_CFLOAT <= OBJECTTYPE input /\ calls s' = calls s.
Proof.
  pose proof (working_type_range input) as Hr.
  assert (Hlow : OBJECTTYPE input < PyArray_CFLOAT ->
                 is_real (working_type input PyArray_CDOUBLE)) by solve_types.
  intros [H|H]; run H; cbn [calls]; trace_eq;
    (destruct gnuc; cbn [andb] in *; trace_eq; [type_lia|]);
    (split_and!; [done| |done]);
    destruct (Z.lt_ge_cases (OBJECTTYPE input) PyArray_CFLOAT) as [Hlt|]; [|done| |done];
    apply Hlow in Hlt; type_lia.
Qed.

Lemma incorrect_type_when_witness :
  calls (IIRsymorder1 false Reference.numeric (Reference.fill 0) Reference.csignal2
           {| real := 1; imag := 0 |} {| real := 0.5; imag := 0 |} None
           Reference.start).1 = [].
Proof.
  refine (proj2 (proj2 (incorrect_type_when false Reference.numeric (Reference.fill 0)
                          Reference.csignal2 Reference.csignal2 Reference.csignal2
                          {| real := 1; imag := 0 |} {| real := 0.5; imag := 0 |} None
                          Reference.start _ (or_intror _)))).
  vm_compute. reflexivity.
Defined.

(** An input of a type below float32 (the integer types) is worked on in
    single precision by all five wrappers: the working type is
    [PyArray_FLOAT], whatever the width of the integers; the only routine
    called is the float32 one, and an array returned is of type float32. *)
Theorem integer_input_single_precision gnuc api core input lambda hrow hcol c0 z1
    r0 omega precision s s' r :
  OBJECTTYPE input < PyArray_FLOAT ->
  cspline2d api core input lambda precision s = (s', r) \/
  qspline2d api core input lambda precision s = (s', r) \/
  FIRsepsym2d gnuc api core input hrow hcol s = (s', r) \/
  IIRsymorder1 gnuc api core input c0 z1 precision s = (s', r) \/
  IIRsymorder2 api core input r0 omega precision s = (s', r) ->
  (forall out, r = Return out -> OBJECTTYPE out = PyArray_FLOAT) /\
  (forall ev, calls_between s s' [ev] -> single_precision_routine (callee ev) = true).
Proof.
  intros Hint.
  assert (Hw : forall cap, cap = PyArray_DOUBLE \/ cap = PyArray_CDOUBLE ->
                 working_type input cap = PyArray_FLOAT).
  { intros cap [-> | ->]; solve_types. }
  intros H.
  unfold cspline2d, qspline2d, FIRsepsym2d, IIRsymorder1, IIRsymorder2 in H.
  rewrite !Hw in H by auto.
  split; [intros out ->|intros ev Hev];
    destruct H as [H|[H|[H|[H|H]]]]; run H; coerced; try done; one_call Hev.
  all: try reflexivity.
  all: cbn in *; try discriminate.
Qed.

Lemma integer_input_single_precision_witness :
  let run := cspline2d Reference.numeric (Reference.fill 0) Reference.short22 None None
               Reference.start in
  (forall out, run.2 = Return out -> OBJECTTYPE out = PyArray_FLOAT) /\
  (forall ev, calls_between Reference.start run.1 [ev] ->
              single_precision_routine (callee ev) = true).
Proof.
  refine (integer_input_single_precision true Reference.numeric (Reference.fill 0)
            Reference.short22 None Reference.kernel3 Reference.kernel3
            {| real := 1; imag := 0 |} {| real := 1; imag := 0 |} 0%float 0%float None
            Reference.start _ _ _ (or_introl (surjective_pairing _))).
  vm_compute. reflexivity.
Defined.

(** [sepfir2d] takes its working type from the image alone and asks for both
    kernels in that type.  With an array interface that does not narrow, a
    kernel of a wider type than the working type (a float64 kernel for a
    float32 image, a complex kernel for a real image) is refused: the call
    ends with the exception of the interface, and no routine is called.  The
    image is not promoted to the type of the kernels. *)
Theorem sepfir2d_kernel_not_promoted gnuc api core image hrow hcol s s' r :
  never_narrows (PyArray_ContiguousFromObject api) ->
  (is_numeric (OBJECTTYPE hrow) /\
   working_type image PyArray_CDOUBLE < OBJECTTYPE hrow) \/
  (is_numeric (OBJECTTYPE hcol) /\
   working_type image PyArray_CDOUBLE < OBJECTTYPE hcol) ->
  FIRsepsym2d gnuc api core image hrow hcol s = (s', r) ->
  r = Raise ArrayError /\ calls s' = calls s.
Proof.
  intros Hsafe Hwide H. run H; cbn [calls]; try done; exfalso.
  all: repeat match goal with
             | Hco : PyArray_ContiguousFromObject _ _ _ _ _ _ = (_, Some _) |- _ =>
                 apply Hsafe in Hco
             end;
    destruct Hwide as [[Hnum Hlt]|[Hnum Hlt]];
    repeat match goal with
           | Hx : is_numeric _ -> _ |- _ => first [specialize (Hx Hnum)|clear Hx]
           end; lia.
Qed.

(** The int16 image is worked on as float32; the float64 kernels are not
    narrowed to it. *)
Lemma sepfir2d_kernel_not_promoted_witness :
  let run := FIRsepsym2d true Reference.numeric (Reference.fill 0) Reference.short22
               Reference.kernel3 Reference.kernel3 Reference.start in
  run.2 = Raise ArrayError /\ calls run.1 = [].
Proof.
  refine (sepfir2d_kernel_not_promoted true Reference.numeric (Reference.fill 0)
            Reference.short22 Reference.kernel3 Reference.kernel3 Reference.start _ _
            from_object_never_narrows (or_introl _) (surjective_pairing _)).
  vm_compute. split; [split; discriminate|reflexivity].
Defined.

(** [cspline2d] and [qspline2d] have no complex case.  On a complex image
    they ask the array interface for a float64 array; an interface that does
    not narrow returns NULL, and [cspline2d] ends there with its exception,
    nothing allocated and nothing called.  [qspline2d] does the same when
    [lambda] is 0, and ends with "Smoothing spline not yet implemented."
    when it is not: [lambda] is tested before the image is looked at. *)
Theorem splines_reject_complex api core image lambda precision s :
  never_narrows (PyArray_FromObject api) ->
  is_complex (OBJECTTYPE image) ->
  (exists h,
     PyArray_FromObject api image PyArray_DOUBLE 2 2 (mem s) = (h, None) /\
     cspline2d api core image lambda precision s
     = ({| mem := h; calls := calls s |}, Raise ArrayError)) /\
  (exists e,
     (qspline2d api core image lambda precision s).2 = Raise e /\
     calls (qspline2d api core image lambda precision s).1 = calls s /\
     e = if (default 0 lambda =? 0)%float then ArrayError else not_implemented).
Proof.
  intros Hsafe Hcomplex.
  destruct (PyArray_FromObject api image PyArray_DOUBLE 2 2 (mem s)) as [h [a|]] eqn:Hco.
  { apply Hsafe in Hco; type_lia. }
  split.
  - exists h. split; [done|].
    unfold cspline2d. rewrite (working_type_complex image Hcomplex).
    py_unfold. by rewrite Hco.
  - unfold qspline2d. rewrite (working_type_complex image Hcomplex).
    destruct (default 0%float lambda =? 0)%float; cbn [negb].
    + py_unfold. rewrite Hco. cbn. eauto.
    + cbn. eauto.
Qed.

Lemma splines_reject_complex_witness :
  cspline2d Reference.numeric (Reference.fill 0) cimage12 None None Reference.start
  = (Reference.start, Raise ArrayError).
Proof.
  destruct (proj1 (splines_reject_complex Reference.numeric (Reference.fill 0) cimage12
                     None None Reference.start from_object_never_narrows
                     (or_intror eq_refl))) as (h & Hco & Hrun).
  rewrite Hrun. vm_compute in Hco. by simplify_eq.
Defined.

(** *** What the routine is called with *)

Lemma coerced_strides_elements (coerce : coercion) input t k h h0 a :
  well_formed coerce ->
  coerce input t k k h = (h0, Some a) ->
  PyArray_FLOAT <= t <= PyArray_CDOUBLE ->
  k = 1 \/ k = 2 ->
  convert_strides int_bits (STRIDES a) (replicate (Z.to_nat k) 0) (ELSIZE a) k
  = Some ((fun st => st / ELSIZE a) <$> STRIDES a).
Proof.
  intros Hwf Hco Ht Hk.
  destruct (coerced_shape _ _ _ _ _ _ _ Hwf Hco Ht Hk) as (_ & Hes & _ & Hstr & _).
  rewrite convert_strides_closed.
  - rewrite take_ge, drop_ge, app_nil_r by (rewrite ?length_replicate; lia).
    by destruct Hes as [-> |[-> | ->]].
  - lia.
  - destruct Hes as [-> |[-> | ->]]; vm_compute; lia.
  - lia.
  - rewrite length_replicate. lia.
Qed.

Ltac same_run :=
  repeat match goal with
         | H1 : ?x = _, H2 : ?x = _ |- _ => rewrite H1 in H2; simplify_eq
         end.

(** The image or signal is read where the coercion left it, whatever its
    layout: the routine is given the buffer of the coerced array, its
    dimensions, and its byte strides divided by the element size (the
    strides in elements, when they are multiples of it).  The kernels of
    [sepfir2d] are given by their buffers and lengths alone, which is why
    they are asked for as contiguous arrays. *)
Theorem input_read_in_place gnuc api core input s s' r ev :
  well_formed (PyArray_FromObject api) ->
  well_formed (PyArray_ContiguousFromObject api) ->
  calls_between s s' [ev] ->
  (forall lambda precision h a,
     PyArray_FromObject api input (working_type input PyArray_DOUBLE) 2 2 (mem s)
     = (h, Some a) ->
     cspline2d api core input lambda precision s = (s', r) \/
     qspline2d api core input lambda precision s = (s', r) ->
     reads_in_place ev a) /\
  (forall hrow hcol h1 a h2 a_hrow h3 a_hcol,
     let t := working_type input PyArray_CDOUBLE in
     PyArray_FromObject api input t 2 2 (mem s) = (h1, Some a) ->
     PyArray_ContiguousFromObject api hrow t 1 1 h1 = (h2, Some a_hrow) ->
     PyArray_ContiguousFromObject api hcol t 1 1 h2 = (h3, Some a_hcol) ->
     FIRsepsym2d gnuc api core input hrow hcol s = (s', r) ->
     reads_in_place ev a /\
     exists Nhrow Nhcol,
       DIMS a_hrow = [Nhrow] /\ DIMS a_hcol = [Nhcol] /\
       kernels_of (actuals ev) = [(DATA a_hrow, Nhrow); (DATA a_hcol, Nhcol)]) /\
  (forall c0 z1 precision h a,
     PyArray_FromObject api input (working_type input PyArray_CDOUBLE) 1 1 (mem s)
     = (h, Some a) ->
     IIRsymorder1 gnuc api core input c0 z1 precision s = (s', r) ->
     reads_in_place ev a) /\
  (forall r0 omega precision h a,
     PyArray_FromObject api input (working_type input PyArray_DOUBLE) 1 1 (mem s)
     = (h, Some a) ->
     IIRsymorder2 api core input r0 omega precision s = (s', r) ->
     reads_in_place ev a).
Proof.
  intros Hwf Hwfc Hev.
  assert (Hcap : PyArray_FLOAT <= working_type input PyArray_DOUBLE <= PyArray_CDOUBLE).
  { pose proof (working_type_le_cap input PyArray_DOUBLE). type_lia. }
  pose proof (working_type_range input) as Hrange.
  split_and!.
  - intros lambda precision h a Hco H.
    pose proof (coerced_strides_elements _ _ _ _ _ _ _ Hwf Hco Hcap (or_intror eq_refl)) as Hs.
    destruct (coerced_dims2 _ _ _ _ _ _ Hwf Hco Hcap) as (M & N & Hd).
    change (replicate (Z.to_nat 2) 0) with [0; 0] in Hs.
    unfold reads_in_place.
    destruct H as [H|H]; unfold cspline2d, qspline2d in H; run H; one_call Hev;
      cbn [actuals input_of shape_of instrides_of]; rewrite Hd in *; simplify_eq/=; done.
  - intros hrow hcol h1 a h2 a_hrow h3 a_hcol t Hco Hrow Hcol H. subst t.
    pose proof (coerced_strides_elements _ _ _ _ _ _ _ Hwf Hco Hrange (or_intror eq_refl)) as Hs.
    destruct (coerced_dims2 _ _ _ _ _ _ Hwf Hco Hrange) as (M & N & Hd).
    destruct (coerced_dims1 _ _ _ _ _ _ Hwfc Hrow Hrange) as (Nhrow & Hdr).
    destruct (coerced_dims1 _ _ _ _ _ _ Hwfc Hcol Hrange) as (Nhcol & Hdc).
    change (replicate (Z.to_nat 2) 0) with [0; 0] in Hs.
    unfold reads_in_place.
    unfold FIRsepsym2d in H; run H; one_call Hev;
      cbn [actuals input_of shape_of instrides_of kernels_of];
      cbn [mem] in *; same_run;
      rewrite Hd, Hdr, Hdc in *; simplify_eq/=; (split; [done|]);
      eexists _, _; done.
  - intros c0 z1 precision h a Hco H.
    pose proof (coerced_strides_elements _ _ _ _ _ _ _ Hwf Hco Hrange (or_introl eq_refl)) as Hs.
    destruct (coerced_shape _ _ _ _ _ _ _ Hwf Hco Hrange (or_introl eq_refl))
      as (_ & _ & _ & Hstr & _).
    destruct (coerced_dims1 _ _ _ _ _ _ Hwf Hco Hrange) as (N & Hd).
    change (replicate (Z.to_nat 1) 0) with [0] in Hs.
    unfold reads_in_place.
    destruct (STRIDES a) as [|st [|]] eqn:Hst; cbn in Hstr; try lia.
    unfold IIRsymorder1 in H; run H; one_call Hev;
      cbn [actuals input_of shape_of instrides_of]; rewrite ?Hd, ?Hst in *;
      same_run; simplify_eq/=; done.
  - intros r0 omega precision h a Hco H.
    pose proof (coerced_strides_elements _ _ _ _ _ _ _ Hwf Hco Hcap (or_introl eq_refl)) as Hs.
    destruct (coerced_shape _ _ _ _ _ _ _ Hwf Hco Hcap (or_introl eq_refl))
      as (_ & _ & _ & Hstr & _).
    destruct (coerced_dims1 _ _ _ _ _ _ Hwf Hco Hcap) as (N & Hd).
    change (replicate (Z.to_nat 1) 0) with [0] in Hs.
    unfold reads_in_place.
    destruct (STRIDES a) as [|st [|]] eqn:Hst; cbn in Hstr; try lia.
    unfold IIRsymorder2 in H; run H; one_call Hev;
      cbn [actuals input_of shape_of instrides_of]; rewrite ?Hd, ?Hst in *;
      same_run; simplify_eq/=; done.
Qed.

(** The transposed image is handed over as it is, with the strides 1 and 2
    in elements. *)
Lemma input_read_in_place_witness :
  let run := cspline2d Reference.numeric (Reference.fill 0) image22T None None
               Reference.start in
  exists ev, calls_between Reference.start run.1 [ev] /\
             reads_in_place ev image22T /\
             instrides_of (actuals ev) = [1; 2].
Proof.
  set (run := cspline2d Reference.numeric (Reference.fill 0) image22T None None
                Reference.start).
  set (ev := {| callee := D_cubic_spline2D;
                actuals := spline2D_args 1%positive 6%positive 2 2 0 [1; 2] [2; 1] 1e-6;
                status := 0 |}).
  assert (Hev : calls_between Reference.start run.1 [ev]) by (vm_compute; reflexivity).
  exists ev. split_and!; [done| |reflexivity].
  refine (proj1 (input_read_in_place true Reference.numeric (Reference.fill 0) image22T
                   Reference.start run.1 run.2 ev
                   from_object_well_formed from_object_well_formed Hev)
            None None (mem Reference.start) image22T _ (or_introl (surjective_pairing _))).
  vm_compute. reflexivity.
Defined.

Lemma allocated_block n d type h h' out :
  PyArray_FromDims n d type h = (h', Some out) ->
  (Z.to_nat n = length d)%nat ->
  exists buf, h' !! DATA out = Some buf /\
              length buf = Z.to_nat (foldr Z.mul 1 d).
Proof.
  intros Halloc Hn.
  apply PyArray_FromDims_Some in Halloc as (_ & -> & _ & Hd & _).
  rewrite take_ge in Hd by lia. rewrite Hd.
  eexists. split; [apply lookup_insert_eq|]. by rewrite length_replicate.
Qed.

Lemma row_major_fits2 M N index :
  in_shape index [M; N] ->
  0 <= offset [N; 1] index < Z.of_nat (Z.to_nat (foldr Z.mul 1 [M; N])).
Proof.
  intros H. apply Forall2_cons_inv_r in H as (i & index' & Hi & H & ->).
  apply Forall2_cons_inv_r in H as (j & index'' & Hj & H & ->).
  apply Forall2_nil_inv_r in H as ->. cbn. nia.
Qed.

Lemma row_major_fits1 N index :
  in_shape index [N] ->
  0 <= offset [1] index < Z.of_nat (Z.to_nat (foldr Z.mul 1 [N])).
Proof.
  intros H. apply Forall2_cons_inv_r in H as (i & index' & Hi & H & ->).
  apply Forall2_nil_inv_r in H as ->. cbn. lia.
Qed.

(** The output buffer is large enough for what the routine is told.  In the
    heap the routine is called in, the buffer it is to write has as many
    elements as the shape it is given has indices ([M * N], or [N]), and the
    output strides it is given ([N] and 1, or 1) take every index of that
    shape to an element of the buffer. *)
Theorem output_buffer_fits gnuc api core input lambda hrow hcol c0 z1 r0 omega
    precision s s' r ev :
  well_formed (PyArray_FromObject api) ->
  calls_between s s' [ev] ->
  cspline2d api core input lambda precision s = (s', r) \/
  qspline2d api core input lambda precision s = (s', r) \/
  FIRsepsym2d gnuc api core input hrow hcol s = (s', r) \/
  IIRsymorder1 gnuc api core input c0 z1 precision s = (s', r) \/
  IIRsymorder2 api core input r0 omega precision s = (s', r) ->
  exists h, core (callee ev) (actuals ev) h = (mem s', status ev) /\ output_fits h ev.
Proof.
  intros Hwf Hev H.
  destruct H as [H|[H|[H|[H|H]]]]; run H; one_call Hev;
    cbn [callee actuals status mem] in *;
    (eexists; split; [eassumption|]);
    unfold output_fits; cbn [actuals output_of shape_of outstrides_of].
  all: match goal with
    | Hco : PyArray_FromObject _ _ (working_type ?i ?cap) 2 2 _ = (_, Some _) |- _ =>
        let Ht := fresh in
        assert (Ht : PyArray_FLOAT <= working_type i cap <= PyArray_CDOUBLE)
          by (apply working_type_in_range; auto);
        destruct (coerced_dims2 _ _ _ _ _ _ Hwf Hco Ht) as (? & ? & Hd)
    | Hco : PyArray_FromObject _ _ (working_type ?i ?cap) 1 1 _ = (_, Some _) |- _ =>
        let Ht := fresh in
        assert (Ht : PyArray_FLOAT <= working_type i cap <= PyArray_CDOUBLE)
          by (apply working_type_in_range; auto);
        destruct (coerced_dims1 _ _ _ _ _ _ Hwf Hco Ht) as (? & Hd)
    end; rewrite Hd in *; simplify_eq/=.
  all: match goal with
    | Ha : PyArray_FromDims _ _ _ _ = (_, Some _) |- _ =>
        apply allocated_block in Ha as (buf & Hbuf & Hlen); [|done]
    end; exists buf; rewrite Hlen; split_and!; [done..|].
  all: first [apply row_major_fits2|apply row_major_fits1].
Qed.

Lemma output_buffer_fits_witness :
  let run := IIRsymorder2 Reference.numeric (Reference.fill 0) Reference.signal3
               0.5%float 1%float None Reference.start in
  exists ev h, calls_between Reference.start run.1 [ev] /\ output_fits h ev.
Proof.
  set (run := IIRsymorder2 Reference.numeric (Reference.fill 0) Reference.signal3
                0.5%float 1%float None Reference.start).
  set (ev := {| callee := D_IIR_forback2;
                actuals := forback2_args 0.5 1 2%positive 6%positive 3 1 1 1e-11;
                status := 0 |}).
  assert (Hev : calls_between Reference.start run.1 [ev]) by (vm_compute; reflexivity).
  destruct (output_buffer_fits true Reference.numeric (Reference.fill 0) Reference.signal3
              None Reference.kernel3 Reference.kernel3
              {| real := 1; imag := 0 |} {| real := 1; imag := 0 |} 0.5%float 1%float None
              Reference.start run.1 run.2 ev from_object_well_formed Hev
              (or_intror (or_intror (or_intror (or_intror (surjective_pairing _))))))
    as (h & _ & Hfits).
  by exists ev, h.
Defined.

(** *** The precision the routine is called with *)

Lemma SFcompare_antisym x y :
  SFcompare y x = option_map CompOpp (SFcompare x y).
Proof.
  destruct x as [[]| []| |[] m1 e1], y as [[]|[]| |[] m2 e2]; try reflexivity; cbn;
    rewrite (Z.compare_antisym e1 e2); destruct (e1 ?= e2); cbn; try reflexivity;
    rewrite (Pos.compare_cont_antisym m1 m2 Eq); reflexivity.
Qed.

Lemma SFcompare_None x y : SFcompare x y = None -> x = S754_nan \/ y = S754_nan.
Proof.
  destruct x as [[]| []| |[] m1 e1], y as [[]|[]| |[] m2 e2]; cbn; try discriminate; auto.
Qed.

Lemma is_nan_Prim2SF x : Prim2SF x = S754_nan -> PrimFloat.is_nan x = true.
Proof.
  intros H. unfold PrimFloat.is_nan. rewrite FloatAxioms.eqb_spec, H. reflexivity.
Qed.

(** When [x <= y] is false, [y < x] holds or one of the two is a NaN. *)
Lemma leb_false_ltb x y :
  (x <=? y)%float = false ->
  (y <? x)%float = true \/ PrimFloat.is_nan x = true \/ PrimFloat.is_nan y = true.
Proof.
  rewrite FloatAxioms.leb_spec, FloatAxioms.ltb_spec. unfold SFleb, SFltb.
  rewrite (SFcompare_antisym (Prim2SF x) (Prim2SF y)).
  destruct (SFcompare (Prim2SF x) (Prim2SF y)) as [[]|] eqn:Hc; cbn; try discriminate; auto.
  intros _. right. apply SFcompare_None in Hc as [?|?]; auto using is_nan_Prim2SF.
Qed.

Lemma ltb_false_leb x y :
  (x <? y)%float = false ->
  (y <=? x)%float = true \/ PrimFloat.is_nan x = true \/ PrimFloat.is_nan y = true.
Proof.
  rewrite FloatAxioms.leb_spec, FloatAxioms.ltb_spec. unfold SFleb, SFltb.
  rewrite (SFcompare_antisym (Prim2SF x) (Prim2SF y)).
  destruct (SFcompare (Prim2SF x) (Prim2SF y)) as [[]|] eqn:Hc; cbn; try discriminate; auto.
  intros _. right. apply SFcompare_None in Hc as [?|?]; auto using is_nan_Prim2SF.
Qed.

Lemma clamp_precision_range p d :
  in_unit_range d = true -> precision_ok p (clamp_precision p d).
Proof.
  intros Hd. unfold precision_ok, clamp_precision.
  destruct (p <=? 0)%float eqn:Hlo; [by left|].
  destruct (1 <? p)%float eqn:Hhi; [by left|]. cbn [orb].
  apply leb_false_ltb in Hlo as [Hlo|[?|Hn]]; [|by right|discriminate Hn].
  apply ltb_false_leb in Hhi as [Hhi|[Hn|?]]; [|discriminate Hn|by right].
  left. unfold in_unit_range. by rewrite Hlo, Hhi.
Qed.

(** The precision a routine is called with is greater than 0 and at most 1,
    unless the caller gave a NaN, which is passed on: so it is for every
    call [cspline2d], [qspline2d] and [symiirorder2] make, and for
    [symiirorder1] before the value is converted to [float] for the
    single-precision routines.  That conversion is made after the test and
    can take a precision within the range out of it: 1e-50 is let through,
    and [S_IIR_forback1] is called with the precision 0. *)
Theorem precision_within_unit_range gnuc api core input lambda c0 z1 r0 omega
    precision s s' r ev :
  calls_between s s' [ev] ->
  (cspline2d api core input lambda precision s = (s', r) \/
   qspline2d api core input lambda precision s = (s', r) \/
   IIRsymorder2 api core input r0 omega precision s = (s', r) ->
   exists q, precision_of (actuals ev) = Some q /\
             precision_ok (default (-1)%float precision) q) /\
  (IIRsymorder1 gnuc api core input c0 z1 precision s = (s', r) ->
   exists q, precision_ok (default (-1)%float precision) q /\
             precision_of (actuals ev)
             = Some (if is_single (working_type input PyArray_CDOUBLE)
                     then single q else q)) /\
  (in_unit_range 1e-50 = true /\
   forall a_sig out N instrides outstrides s0, exists ev0,
     calls (IIRsymorder1_switch gnuc core PyArray_FLOAT c0 z1 a_sig out N
              instrides outstrides 1e-50 s0).1 = calls s0 ++ [ev0] /\
     callee ev0 = S_IIR_forback1 /\
     precision_of (actuals ev0) = Some 0%float).
Proof.
  intros Hev. split; [|split].
  - intros [H|[H|H]]; run H; one_call Hev; cbn [actuals precision_of];
      (eexists; split; [reflexivity|]); by apply clamp_precision_range.
  - intros H; run H; one_call Hev; unfold is_single; by_type;
      cbn [actuals precision_of Z.eqb Pos.eqb orb PyArray_FLOAT PyArray_DOUBLE
           PyArray_CFLOAT PyArray_CDOUBLE];
      (eexists; split; [|reflexivity]); by apply clamp_precision_range.
  - split; [reflexivity|]. intros a_sig out N instrides outstrides s0.
    unfold IIRsymorder1_switch, call. cbn [Z.eqb Pos.eqb PyArray_FLOAT].
    match goal with |- context [match ?c with pair _ _ => _ end] => destruct c end.
    eexists. split_and!; reflexivity.
Qed.

Lemma precision_within_unit_range_witness :
  let run := IIRsymorder2 Reference.numeric (Reference.fill 0) Reference.signal3
               0.5%float 1%float (Some 0.25%float) Reference.start in
  exists ev q, calls_between Reference.start run.1 [ev] /\
               precision_of (actuals ev) = Some q /\
               precision_ok 0.25 q.
Proof.
  set (run := IIRsymorder2 Reference.numeric (Reference.fill 0) Reference.signal3
                0.5%float 1%float (Some 0.25%float) Reference.start).
  set (ev := {| callee := D_IIR_forback2;
                actuals := forback2_args 0.5 1 2%positive 6%positive 3 1 1 0.25;
                status := 0 |}).
  assert (Hev : calls_between Reference.start run.1 [ev]) by (vm_compute; reflexivity).
  destruct (proj1 (precision_within_unit_range true Reference.numeric (Reference.fill 0)
                     Reference.signal3 None {| real := 1; imag := 0 |}
                     {| real := 1; imag := 0 |} 0.5%float 1%float (Some 0.25%float)
                     Reference.start run.1 run.2 ev Hev)
              (or_intror (or_intror (surjective_pairing _)))) as (q & Hq & Hok).
  by exists ev, q.
Defined.
